(** * The streaming client of the LISA SDK ([lisapy/main.py])

    A shallow embedding of [Lisa.generate_stream] and
    [Lisa.agenerate_stream]: the per-line decoder both generators inline,
    the two generators as traces and as resumable machines, and the
    properties of the streaming protocol they implement. *)

From Stdlib Require Import List String Ascii ZArith NArith Bool Lia.
From Stdlib Require Import Strings.Byte.
Import ListNotations.
Local Open Scope string_scope.
Local Open Scope list_scope.
#[local] Set Warnings "-register-all".

(** ** Python values *)

(** A Python [str] is held as its UTF-8 encoding, one [ascii] per octet.
    Every operation the client applies to a [str] ([startswith],
    [removeprefix], [rstrip], each with an ASCII argument) acts on the
    encoding exactly as it does on the code points. *)
Definition str := string.

(** A Python [bytes] object. *)
Definition bytes := list byte.

(** The objects [json.loads] can return.  A [dict] keeps its items in
    insertion order, with one item per key. *)
Inductive value : Type :=
| VNone
| VBool (b : bool)
| VInt (z : Z)
| VFloat (lexeme : str)
| VStr (s : str)
| VList (items : list value)
| VDict (items : list (str * value)).

(** The line feed, and the one-character string holding it. *)
Definition LF : ascii := ascii_of_nat 10.
Definition nl : str := String LF EmptyString.

(** The double quote. *)
Definition DQUOTE : ascii := ascii_of_nat 34.

(** [b s] is the bytes literal [b's']. *)
Definition b (s : string) : bytes := list_byte_of_string s.

Module PyStr.

(** [s.startswith(prefix)] *)
Fixpoint startswith (s prefix : str) {struct prefix} : bool :=
  match prefix, s with
  | EmptyString, _ => true
  | String p prefix', String c s' => Ascii.eqb c p && startswith s' prefix'
  | String _ _, EmptyString => false
  end.

(** What is left of [s] once [String.length prefix] characters are dropped. *)
Fixpoint drop (n : nat) (s : str) : str :=
  match n, s with
  | O, _ => s
  | S n', String _ s' => drop n' s'
  | S _, EmptyString => EmptyString
  end.

(** [s.removeprefix(prefix)] *)
Definition removeprefix (s prefix : str) : str :=
  if startswith s prefix then drop (String.length prefix) s else s.

(** [c in chars] for a character [c]. *)
Fixpoint mem (c : ascii) (chars : str) : bool :=
  match chars with
  | EmptyString => false
  | String d chars' => Ascii.eqb c d || mem c chars'
  end.

(** [s.rstrip(chars)]: [chars] is a set of characters, and every trailing
    character of [s] that belongs to it is removed. *)
Fixpoint rstrip (s chars : str) : str :=
  match s with
  | EmptyString => EmptyString
  | String c s' =>
      match rstrip s' chars with
      | EmptyString => if mem c chars then EmptyString else String c EmptyString
      | kept => String c kept
      end
  end.

(** [sub in s] for two strings: substring search. *)
Fixpoint contains (s sub : str) : bool :=
  startswith s sub ||
  match s with
  | EmptyString => false
  | String _ s' => contains s' sub
  end.

End PyStr.

(** ** Exceptions *)

(** The response objects of the two HTTP libraries.  A [requests.Response]
    carries the status as [status_code]; [iter_lines()] delivers the body
    split at line ends, the line ends removed. *)
Record Response : Type := mkResponse {
  status_code : Z;
  iter_lines : list bytes
}.

(** An [aiohttp.ClientResponse] carries the status as [status]; iterating
    [content] delivers the body line by line, each line with its line end;
    [json] is what [await response.json()] gives, [None] when it raises. *)
Record ClientResponse : Type := mkClientResponse {
  status : Z;
  json : option value;
  content : list bytes
}.

Inductive response_object : Type :=
| OfRequests (r : Response)
| OfAiohttp (r : ClientResponse).

(** Modelled from the spec: [lisapy/errors.py] is not among the sources;
    its [parse_error(status_code, response)] is the Error Mapper, which
    "given (status_code, response) produces a typed error".  The typed
    error is held as the call itself, by its two arguments.  The other
    constructors are the exceptions of Python and of its libraries that
    the two generators can raise; [ResponseJsonError] stands for whatever
    [await response.json()] raises on a body it cannot read. *)
Inductive exn : Type :=
| UnicodeDecodeError
| JSONDecodeError
| TypeError
| KeyError (key : str)
| AttributeError (name : str)
| ResponseJsonError
| parse_error (status_code : Z) (response : response_object).

(** A computation that returns or raises. *)
Inductive res (A : Type) : Type :=
| Ok (a : A)
| Raise (e : exn).
Arguments Ok {A} a.
Arguments Raise {A} e.

Definition bind {A B : Type} (c : res A) (k : A -> res B) : res B :=
  match c with
  | Ok a => k a
  | Raise e => Raise e
  end.

Declare Scope py_scope.
Delimit Scope py_scope with py.
Notation "x <- c ;; k" := (bind c (fun x => k))
  (at level 61, c at next level, right associativity) : py_scope.
Local Open Scope py_scope.

Module PyObj.

(** The item of [items] stored under [key]. *)
Fixpoint lookup (key : str) (items : list (str * value)) : option value :=
  match items with
  | [] => None
  | (k, v) :: items' => if String.eqb k key then Some v else lookup key items'
  end.

Definition is_str (v : value) (s : str) : bool :=
  match v with
  | VStr t => String.eqb t s
  | _ => false
  end.

(** [key in obj] for a string [key]: key membership on a dict, element
    membership on a list, substring search on a string; the other
    objects are not containers. *)
Definition contains (obj : value) (key : str) : res bool :=
  match obj with
  | VDict items =>
      Ok (match lookup key items with Some _ => true | None => false end)
  | VList items => Ok (existsb (fun v => is_str v key) items)
  | VStr s => Ok (PyStr.contains s key)
  | VNone | VBool _ | VInt _ | VFloat _ => Raise TypeError
  end.

(** [obj[key]] for a string [key]: only a dict is indexed by strings. *)
Definition getitem (obj : value) (key : str) : res value :=
  match obj with
  | VDict items =>
      match lookup key items with
      | Some v => Ok v
      | None => Raise (KeyError key)
      end
  | _ => Raise TypeError
  end.

(** [a == t] for a bytes object [a] and a str [t]: objects of the two
    types never compare equal. *)
Definition bytes_eq_str (a : bytes) (t : str) : bool := false.

End PyObj.

(** ** UTF-8 *)

Module Utf8.

Definition continuation (x : byte) : bool :=
  (128 <=? Byte.to_N x)%N && (Byte.to_N x <=? 191)%N.

Definition between (lo x hi : N) : bool := (lo <=? x)%N && (x <=? hi)%N.

(** Whether the octets are well-formed UTF-8, as the strict decoder has
    it: shortest forms only, no surrogates, nothing above U+10FFFF. *)
Fixpoint valid (bs : list byte) : bool :=
  match bs with
  | [] => true
  | b0 :: r0 =>
      let n0 := Byte.to_N b0 in
      if (n0 <? 128)%N then valid r0
      else
        match r0 with
        | [] => false
        | b1 :: r1 =>
            let n1 := Byte.to_N b1 in
            if between 194 n0 223 then continuation b1 && valid r1
            else
              match r1 with
              | [] => false
              | b2 :: r2 =>
                  if between 224 n0 239 then
                    (if (n0 =? 224)%N then between 160 n1 191
                     else if (n0 =? 237)%N then between 128 n1 159
                     else continuation b1)
                    && continuation b2 && valid r2
                  else
                    match r2 with
                    | [] => false
                    | b3 :: r3 =>
                        between 240 n0 244
                        && (if (n0 =? 240)%N then between 144 n1 191
                            else if (n0 =? 244)%N then between 128 n1 143
                            else continuation b1)
                        && continuation b2 && continuation b3 && valid r3
                    end
              end
        end
  end.

(** [line.decode("utf-8")] *)
Definition decode (line : bytes) : res str :=
  if valid line then Ok (string_of_list_byte line) else Raise UnicodeDecodeError.

End Utf8.

(** ** Stream frames *)

(** Modelled from the spec: [lisapy/types.py] is not among the sources; its
    [StreamingResponse] is the StreamFrame of the data model: a token text,
    a finish reason and a generated-token count, the last two absent
    ([None]) unless given.  The fields hold the objects passed to the
    constructor as they are. *)
Record StreamingResponse : Type := mkStreamingResponse {
  token : value;
  finish_reason : value;
  generated_tokens : value
}.

Definition is_None (v : value) : bool :=
  match v with
  | VNone => true
  | _ => false
  end.

(** A TokenFrame carries neither finish field; every other frame is a
    FinalFrame. *)
Definition is_token_frame (f : StreamingResponse) : bool :=
  is_None (finish_reason f) && is_None (generated_tokens f).

Definition is_final_frame (f : StreamingResponse) : bool :=
  negb (is_token_frame f).

(** ** A JSON reader

    [Json.loads] follows the decoder of the Python standard library on a
    [str]: the grammar of RFC 8259 with [NaN], [Infinity] and [-Infinity]
    accepted, blanks (space, tab, line feed, carriage return) allowed
    around every token, control characters refused inside strings, and,
    for a key that occurs twice, the last value kept.  A number with a
    fraction or an exponent is held by its lexeme.  The generators take
    the reader as a parameter; this one instantiates it. *)

Module Json.
Local Open Scope N_scope.

Definition ch_is (c d : ascii) : bool := Ascii.eqb c d.

Definition is_ws (c : ascii) : bool :=
  ch_is c " " || ch_is c (ascii_of_nat 9) || ch_is c (ascii_of_nat 10) || ch_is c (ascii_of_nat 13).

Fixpoint skip_ws (s : str) : str :=
  match s with
  | String c r => if is_ws c then skip_ws r else s
  | EmptyString => s
  end.

Definition digit (c : ascii) : option N :=
  let n := N_of_ascii c in
  if (48 <=? n)%N && (n <=? 57)%N then Some (n - 48)%N else None.

Definition hex (c : ascii) : option N :=
  let n := N_of_ascii c in
  if (48 <=? n)%N && (n <=? 57)%N then Some (n - 48)%N
  else if (65 <=? n)%N && (n <=? 70)%N then Some (n - 55)%N
  else if (97 <=? n)%N && (n <=? 102)%N then Some (n - 87)%N
  else None.

(** The longest prefix of decimal digits, and what follows it. *)
Fixpoint digits (s : str) : str * str :=
  match s with
  | String c r =>
      match digit c with
      | Some _ => let (ds, rest) := digits r in (String c ds, rest)
      | None => (EmptyString, s)
      end
  | EmptyString => (EmptyString, s)
  end.

Fixpoint decimal (acc : N) (ds : str) : N :=
  match ds with
  | String c r =>
      match digit c with
      | Some d => decimal (10 * acc + d)%N r
      | None => acc
      end
  | EmptyString => acc
  end.

(** The UTF-8 encoding of a code point (a lone surrogate is encoded like
    any other three-octet code point). *)
Definition encode (n : N) : str :=
  let ch (x : N) := ascii_of_N x in
  if (n <? 128)%N then String (ch n) EmptyString
  else if (n <? 2048)%N then
    String (ch (192 + n / 64)) (String (ch (128 + n mod 64)) EmptyString)
  else if (n <? 65536)%N then
    String (ch (224 + n / 4096))
      (String (ch (128 + (n / 64) mod 64)) (String (ch (128 + n mod 64)) EmptyString))
  else
    String (ch (240 + n / 262144))
      (String (ch (128 + (n / 4096) mod 64))
         (String (ch (128 + (n / 64) mod 64)) (String (ch (128 + n mod 64)) EmptyString))).

(** Four hexadecimal digits as a number. *)
Definition hex4 (c1 c2 c3 c4 : ascii) : option N :=
  match hex c1, hex c2, hex c3, hex c4 with
  | Some h1, Some h2, Some h3, Some h4 => Some (4096 * h1 + 256 * h2 + 16 * h3 + h4)%N
  | _, _, _, _ => None
  end.

(** A low surrogate written [\uXXXX] at the head of [s], and what
    follows it. *)
Definition low_surrogate (s : str) : option (N * str) :=
  match s with
  | String bs (String u (String c1 (String c2 (String c3 (String c4 r))))) =>
      if ch_is bs "\" && ch_is u "u" then
        match hex4 c1 c2 c3 c4 with
        | Some lo => if (56320 <=? lo)%N && (lo <=? 57343)%N then Some (lo, r) else None
        | None => None
        end
      else None
  | _ => None
  end.

(** The one-character escapes. *)
Definition escape (e : ascii) : option ascii :=
  if ch_is e DQUOTE || ch_is e "\" || ch_is e "/" then Some e
  else if ch_is e "b" then Some (ascii_of_nat 8)
  else if ch_is e "f" then Some (ascii_of_nat 12)
  else if ch_is e "n" then Some (ascii_of_nat 10)
  else if ch_is e "r" then Some (ascii_of_nat 13)
  else if ch_is e "t" then Some (ascii_of_nat 9)
  else None.

(** The body of a string literal, from after its opening quote up to
    and including the closing one: the characters it denotes, and what
    follows the literal. *)
Fixpoint scanstring (s : str) : option (str * str) :=
  match s with
  | EmptyString => None
  | String c r =>
      if ch_is c DQUOTE then Some (EmptyString, r)
      else if ch_is c "\" then
        match r with
        | EmptyString => None
        | String e r1 =>
            if ch_is e "u" then
              match r1 with
              | String c1 (String c2 (String c3 (String c4 r2))) =>
                  match hex4 c1 c2 c3 c4 with
                  | None => None
                  | Some hi =>
                      match
                        (if (55296 <=? hi) && (hi <=? 56319) then
                           match r2 with
                           | String b1 (String b2 (String d1 (String d2 (String d3 (String d4 r3))))) =>
                               match low_surrogate r2 with
                               | Some (lo, _) =>
                                   Some (65536 + (hi - 55296) * 1024 + (lo - 56320), scanstring r3)
                               | None => None
                               end
                           | _ => None
                           end
                         else None)
                      with
                      | Some (joined, Some (t, rest)) => Some (encode joined ++ t, rest)%string
                      | Some (_, None) => None
                      | None =>
                          match scanstring r2 with
                          | Some (t, rest) => Some (encode hi ++ t, rest)%string
                          | None => None
                          end
                      end
                  end
              | _ => None
              end
            else
              match escape e, scanstring r1 with
              | Some x, Some (t, rest) => Some (String x t, rest)
              | _, _ => None
              end
        end
      else if N_of_ascii c <? 32 then None
      else
        match scanstring r with
        | Some (t, rest) => Some (String c t, rest)
        | None => None
        end
  end.

(** A number at the head of [s]: an optional minus sign; an integer
    part, which is a lone 0 or a run of digits that does not begin with
    0; an optional fraction, a point and at least one digit; an optional
    exponent, e or E, an optional sign and at least one digit. *)
Definition number (s : str) : option (value * str) :=
  let (neg, s1) :=
    match s with
    | String c r => if ch_is c "-" then (true, r) else (false, s)
    | EmptyString => (false, s)
    end in
  let (int_part, s2) :=
    match s1 with
    | String c r => if ch_is c "0" then (String c EmptyString, r) else digits s1
    | EmptyString => (EmptyString, s1)
    end in
  match int_part with
  | EmptyString => None
  | _ =>
      let (frac, s3) :=
        match s2 with
        | String c r =>
            if ch_is c "." then
              match digits r with
              | (EmptyString, _) => (EmptyString, s2)
              | (ds, rest) => (String c ds, rest)
              end
            else (EmptyString, s2)
        | EmptyString => (EmptyString, s2)
        end in
      let (exp, s4) :=
        match s3 with
        | String c r =>
            if ch_is c "e" || ch_is c "E" then
              let (sign, r1) :=
                match r with
                | String g r' =>
                    if ch_is g "-" || ch_is g "+" then (String g EmptyString, r')
                    else (EmptyString, r)
                | EmptyString => (EmptyString, r)
                end in
              match digits r1 with
              | (EmptyString, _) => (EmptyString, s3)
              | (ds, rest) => (String c (sign ++ ds), rest)%string
              end
            else (EmptyString, s3)
        | EmptyString => (EmptyString, s3)
        end in
      match frac, exp with
      | EmptyString, EmptyString =>
          let n := Z.of_N (decimal 0 int_part) in
          Some (VInt (if neg then (- n)%Z else n), s4)
      | _, _ =>
          Some (VFloat ((if neg then "-" else EmptyString) ++ int_part ++ frac ++ exp)%string, s4)
      end
  end.

(** [d[key] = v] *)
Fixpoint dict_set (key : str) (v : value) (items : list (str * value)) : list (str * value) :=
  match items with
  | [] => [(key, v)]
  | (k, w) :: items' =>
      if String.eqb k key then (k, v) :: items' else (k, w) :: dict_set key v items'
  end.

(** [word] at the head of [s] stands for [v]. *)
Definition literal (word : str) (v : value) (s : str) : option (value * str) :=
  if PyStr.startswith s word then Some (v, PyStr.drop (String.length word) s) else None.

Definition first_of {A : Type} (x y : option A) : option A :=
  match x with
  | Some _ => x
  | None => y
  end.

Section Containers.

(** The reader of one value, blanks before it already skipped. *)
Variable scan_once : str -> option (value * str).

(** The items of an array after its opening bracket, the array not
    empty: values separated by commas, up to the closing bracket. *)
Fixpoint elements (fuel : nat) (s : str) (acc : list value) : option (list value * str) :=
  match fuel with
  | O => None
  | S fuel' =>
      match scan_once s with
      | None => None
      | Some (v, r) =>
          match skip_ws r with
          | String c r' =>
              if ch_is c "," then elements fuel' (skip_ws r') (acc ++ [v])
              else if ch_is c "]" then Some (acc ++ [v], r')
              else None
          | EmptyString => None
          end
      end
  end.

(** The members of an object after its opening brace, the object not
    empty: a quoted key, a colon, a value; members are separated by
    commas, up to the closing brace. *)
Fixpoint members (fuel : nat) (s : str) (acc : list (str * value))
  : option (list (str * value) * str) :=
  match fuel with
  | O => None
  | S fuel' =>
      match s with
      | String q r =>
          if ch_is q DQUOTE then
            match scanstring r with
            | None => None
            | Some (key, r1) =>
                match skip_ws r1 with
                | String c r2 =>
                    if ch_is c ":" then
                      match scan_once (skip_ws r2) with
                      | None => None
                      | Some (v, r3) =>
                          match skip_ws r3 with
                          | String d r4 =>
                              if ch_is d "," then members fuel' (skip_ws r4) (dict_set key v acc)
                              else if ch_is d "}" then Some (dict_set key v acc, r4)
                              else None
                          | EmptyString => None
                          end
                      end
                    else None
                | EmptyString => None
                end
            end
          else None
      | EmptyString => None
      end
  end.

End Containers.

(** One value at the head of [s], blanks before it already skipped.
    [depth] bounds the nesting of arrays and objects. *)
Fixpoint scan_once (depth : nat) (s : str) : option (value * str) :=
  match depth with
  | O => None
  | S depth' =>
      match s with
      | EmptyString => None
      | String c r =>
          if ch_is c DQUOTE then
            match scanstring r with
            | Some (t, rest) => Some (VStr t, rest)
            | None => None
            end
          else if ch_is c "{" then
            match skip_ws r with
            | String d r' =>
                if ch_is d "}" then Some (VDict [], r')
                else
                  match members (scan_once depth') (String.length r) (skip_ws r) [] with
                  | Some (items, rest) => Some (VDict items, rest)
                  | None => None
                  end
            | EmptyString => None
            end
          else if ch_is c "[" then
            match skip_ws r with
            | String d r' =>
                if ch_is d "]" then Some (VList [], r')
                else
                  match elements (scan_once depth') (String.length r) (skip_ws r) [] with
                  | Some (items, rest) => Some (VList items, rest)
                  | None => None
                  end
            | EmptyString => None
            end
          else
            first_of (literal "null" VNone s)
           (first_of (literal "true" (VBool true) s)
           (first_of (literal "false" (VBool false) s)
           (first_of (number s)
           (first_of (literal "NaN" (VFloat "NaN") s)
           (first_of (literal "Infinity" (VFloat "Infinity") s)
                     (literal "-Infinity" (VFloat "-Infinity") s))))))
      end
  end.

(** The byte order mark, encoded. *)
Definition BOM : str := encode 65279.

(** [json.loads(s)] *)
Definition loads (s : str) : res value :=
  if PyStr.startswith s BOM then Raise JSONDecodeError
  else
    match scan_once (S (String.length s)) (skip_ws s) with
    | Some (v, rest) =>
        match skip_ws rest with
        | EmptyString => Ok v
        | String _ _ => Raise JSONDecodeError
        end
    | None => Raise JSONDecodeError
    end.

End Json.

(** Line literals are written with an apostrophe where the line has a
    double quote. *)
Fixpoint dq (s : string) : string :=
  match s with
  | EmptyString => EmptyString
  | String c r => String (if Ascii.eqb c "'" then DQUOTE else c) (dq r)
  end.

(** ** The loop bodies *)

Section Decoder.

(** [json.loads], of the Python standard library. *)
Variable loads : str -> res value.

(** The body of the [for] loop of [generate_stream] (lines 261-275), run
    on one line: [Ok None] when the body ends without a [yield],
    [Ok (Some f)] when it yields [f], [Raise e] when it raises [e]. *)
Definition generate_stream_body (resp_line : bytes) : res (option StreamingResponse) :=
  if PyObj.bytes_eq_str resp_line ("b" ++ nl)%string then Ok None
  else
    payload <- Utf8.decode resp_line ;;
    if PyStr.startswith payload "data:" then
      json_payload <- loads (PyStr.rstrip (PyStr.removeprefix payload "data:") "/n") ;;
      is_finish <- PyObj.contains json_payload "finishReason" ;;
      if (is_finish : bool) then
        reason <- PyObj.getitem json_payload "finishReason" ;;
        count <- PyObj.getitem json_payload "generatedTokens" ;;
        Ok (Some (mkStreamingResponse (VStr EmptyString) reason count))
      else
        tok <- PyObj.getitem json_payload "token" ;;
        text <- PyObj.getitem tok "text" ;;
        Ok (Some (mkStreamingResponse text VNone VNone))
    else Ok None.

(** The body of the [async for] loop of [agenerate_stream] (lines
    316-330). *)
Definition agenerate_stream_body (resp_line : bytes) : res (option StreamingResponse) :=
  if PyObj.bytes_eq_str resp_line ("b" ++ nl)%string then Ok None
  else
    payload <- Utf8.decode resp_line ;;
    if PyStr.startswith payload "data:" then
      json_payload <- loads (PyStr.rstrip (PyStr.removeprefix payload "data:") "/n") ;;
      is_finish <- PyObj.contains json_payload "finishReason" ;;
      if (is_finish : bool) then
        reason <- PyObj.getitem json_payload "finishReason" ;;
        count <- PyObj.getitem json_payload "generatedTokens" ;;
        Ok (Some (mkStreamingResponse (VStr EmptyString) reason count))
      else
        tok <- PyObj.getitem json_payload "token" ;;
        text <- PyObj.getitem tok "text" ;;
        Ok (Some (mkStreamingResponse text VNone VNone))
    else Ok None.

(** *** The generators, run to their end *)

(** How a generator ends once the caller has taken every frame: its
    body returns, or an exception propagates out of it. *)
Inductive completion : Type :=
| Returned
| Raised (e : exn).

(** The frames a [for] loop yields over [lines], in order, and how it
    ends.  [body] is the loop body; an exception leaves the loop. *)
Fixpoint for_loop (body : bytes -> res (option StreamingResponse)) (lines : list bytes)
  : list StreamingResponse * completion :=
  match lines with
  | [] => ([], Returned)
  | resp_line :: rest =>
      match body resp_line with
      | Raise e => ([], Raised e)
      | Ok None => for_loop body rest
      | Ok (Some frame) =>
          let (frames, c) := for_loop body rest in (frame :: frames, c)
      end
  end.

(** [generate_stream], from the response of the POST on (lines 258-277):
    the frames it yields and how it ends. *)
Definition generate_stream (response : Response) : list StreamingResponse * completion :=
  if (status_code response =? 200)%Z then
    for_loop generate_stream_body (iter_lines response)
  else
    ([], Raised (parse_error (status_code response) (OfRequests response))).

(** [response.name] on an aiohttp response, for the two names the client
    reads the status under.  The class has [status]; [status_code] is
    the name requests uses, and reading an attribute an object lacks
    raises AttributeError. *)
Definition ClientResponse_getattr (response : ClientResponse) (name : str) : res Z :=
  if String.eqb name "status" then Ok (status response)
  else Raise (AttributeError name).

(** [await response.json()] *)
Definition await_json (response : ClientResponse) : res value :=
  match json response with
  | Some payload => Ok payload
  | None => Raise ResponseJsonError
  end.

(** The exception a [raise] statement raises: the object its expression
    evaluates to, or what the evaluation itself raises. *)
Definition raised (expression : res exn) : exn :=
  match expression with
  | Ok e => e
  | Raise e => e
  end.

(** [agenerate_stream], from the response of the POST on (lines
    310-330). *)
Definition agenerate_stream (response : ClientResponse) : list StreamingResponse * completion :=
  match ClientResponse_getattr response "status" with
  | Raise e => ([], Raised e)
  | Ok st =>
      if negb (st =? 200)%Z then
        ([], Raised (raised (
               payload <- await_json response ;;
               code <- ClientResponse_getattr response "status_code" ;;
               Ok (parse_error code (OfAiohttp response)))))
      else
        for_loop agenerate_stream_body (content response)
  end.

End Decoder.

(** ** The generators as objects *)

(** What one call of [next] (or one [await] of [anext]) gives the caller: a
    frame, the end of the iteration, or an exception. *)
Inductive signal : Type :=
| Yielded (frame : StreamingResponse)
| StopIteration
| Thrown (e : exn).

(** The loop, resumed over the lines not yet read, up to its next [yield]:
    what the caller gets, and the lines still unread. *)
Fixpoint resume (body : bytes -> res (option StreamingResponse)) (lines : list bytes)
  : signal * list bytes :=
  match lines with
  | [] => (StopIteration, [])
  | resp_line :: rest =>
      match body resp_line with
      | Raise e => (Thrown e, rest)
      | Ok None => resume body rest
      | Ok (Some frame) => (Yielded frame, rest)
      end
  end.

(** The client object, by what the generators and the finalizer touch: the
    [requests.Session] that [__init__] opens and stores as [_session]. *)
Record Lisa : Type := mkLisa {
  session_closed : bool
}.

(** [Lisa.__init__] *)
Definition Lisa_init : Lisa := mkLisa false.

(** [Lisa.__del__]: [self._session.close()], whatever it raises dropped. *)
Definition Lisa_del (self : Lisa) : Lisa := mkLisa true.

(** The generator object [generate_stream] returns: not started yet (the
    response is the one the POST will get), parked at a [yield] with the
    lines still to read, or finished. *)
Inductive generator : Type :=
| Created (response : Response)
| Suspended (rest : list bytes)
| Finished.

(** The connection contexts of aiohttp that are entered and not yet left:
    [ClientSession(...)] objects and the responses of [session.post(...)]. *)
Record Connections : Type := mkConnections {
  client_sessions : nat;
  client_responses : nat
}.

(** Entering the two nested [async with] blocks of [agenerate_stream], and
    leaving them. *)
Definition enter (w : Connections) : Connections :=
  mkConnections (S (client_sessions w)) (S (client_responses w)).

Definition leave (w : Connections) : Connections :=
  mkConnections (pred (client_sessions w)) (pred (client_responses w)).

(** The asynchronous generator object [agenerate_stream] returns. *)
Inductive async_generator : Type :=
| ACreated (response : ClientResponse)
| ASuspended (rest : list bytes)
| AFinished.

Section Lifecycle.

Variable loads : str -> res value.

(** [next(g)] on the generator of a client [self]: the body of
    [generate_stream] runs to its next [yield]; it neither closes the
    response nor the session. *)
Definition next (st : Lisa * generator) : signal * (Lisa * generator) :=
  let (self, g) := st in
  let continue (lines : list bytes) :=
    match resume (generate_stream_body loads) lines with
    | (Yielded frame, rest) => (Yielded frame, (self, Suspended rest))
    | (s, _) => (s, (self, Finished))
    end in
  match g with
  | Created response =>
      if (status_code response =? 200)%Z then continue (iter_lines response)
      else
        (Thrown (parse_error (status_code response) (OfRequests response)), (self, Finished))
  | Suspended rest => continue rest
  | Finished => (StopIteration, st)
  end.

(** [await anext(g)]: the body of [agenerate_stream] runs to its next
    [yield].  The first call enters the two [async with] blocks; the body
    leaves them when it returns or raises, and stays inside them while
    parked at a [yield]. *)
Definition anext (st : async_generator * Connections)
  : signal * (async_generator * Connections) :=
  let (g, w) := st in
  let continue (inside : Connections) (lines : list bytes) :=
    match resume (agenerate_stream_body loads) lines with
    | (Yielded frame, rest) => (Yielded frame, (ASuspended rest, inside))
    | (s, _) => (s, (AFinished, leave inside))
    end in
  match g with
  | ACreated response =>
      let inside := enter w in
      match ClientResponse_getattr response "status" with
      | Raise e => (Thrown e, (AFinished, leave inside))
      | Ok st =>
          if negb (st =? 200)%Z then
            (Thrown (raised (
               payload <- await_json response ;;
               code <- ClientResponse_getattr response "status_code" ;;
               Ok (parse_error code (OfAiohttp response)))),
             (AFinished, leave inside))
          else continue inside (content response)
      end
  | ASuspended rest => continue w rest
  | AFinished => (StopIteration, st)
  end.

(** [await g.aclose()]: GeneratorExit is thrown at the [yield] the
    generator is parked at and leaves the two [async with] blocks on its
    way out; a generator that has not started, or has finished, holds
    nothing. *)
Definition aclose (st : async_generator * Connections) : async_generator * Connections :=
  let (g, w) := st in
  match g with
  | ASuspended _ => (AFinished, leave w)
  | ACreated _ | AFinished => (AFinished, w)
  end.

(** The state after the caller has asked for [n] items. *)
Fixpoint after_next (n : nat) (st : Lisa * generator) : Lisa * generator :=
  match n with
  | O => st
  | S n' => after_next n' (snd (next st))
  end.

Fixpoint after_anext (n : nat) (st : async_generator * Connections)
  : async_generator * Connections :=
  match n with
  | O => st
  | S n' => after_anext n' (snd (anext st))
  end.

(** [list(g)], with at most [fuel] calls of [next]: the frames, and how the
    generator ended if it did within [fuel] calls. *)
Fixpoint drain (fuel : nat) (st : Lisa * generator)
  : list StreamingResponse * option completion :=
  match fuel with
  | O => ([], None)
  | S fuel' =>
      match next st with
      | (Yielded frame, st') =>
          let (frames, c) := drain fuel' st' in (frame :: frames, c)
      | (StopIteration, _) => ([], Some Returned)
      | (Thrown e, _) => ([], Some (Raised e))
      end
  end.

(** [[f async for f in g]], with at most [fuel] calls of [anext]. *)
Fixpoint adrain (fuel : nat) (st : async_generator * Connections)
  : list StreamingResponse * option completion :=
  match fuel with
  | O => ([], None)
  | S fuel' =>
      match anext st with
      | (Yielded frame, st') =>
          let (frames, c) := adrain fuel' st' in (frame :: frames, c)
      | (StopIteration, _) => ([], Some Returned)
      | (Thrown e, _) => ([], Some (Raised e))
      end
  end.

End Lifecycle.

(** A stream of frames is well formed when it is a run of TokenFrames,
    followed by at most one FinalFrame. *)
Fixpoint tokens_then_final (frames : list StreamingResponse) : bool :=
  match frames with
  | [] => true
  | [frame] => true
  | frame :: rest => is_token_frame frame && tokens_then_final rest
  end.

(** ** Vocabulary of the properties *)

(** [line.startswith(prefix)] on bytes objects. *)
Fixpoint bytes_startswith (line prefix : bytes) {struct prefix} : bool :=
  match prefix, line with
  | [], _ => true
  | p :: prefix', x :: line' => Byte.eqb x p && bytes_startswith line' prefix'
  | _ :: _, [] => false
  end.

(** No line of [lines] makes the loop body yield. *)
Definition silent (body : bytes -> res (option StreamingResponse)) (lines : list bytes) : bool :=
  forallb (fun resp_line =>
             match body resp_line with
             | Ok (Some _) => false
             | Ok None | Raise _ => true
             end) lines.

(** The server finishes at most once: no line that makes the body yield
    comes after a line that made it yield a FinalFrame (lines behind one
    that raises are never read). *)
Fixpoint finishes_once (body : bytes -> res (option StreamingResponse)) (lines : list bytes)
  : bool :=
  match lines with
  | [] => true
  | resp_line :: rest =>
      match body resp_line with
      | Ok (Some frame) =>
          if is_final_frame frame then silent body rest else finishes_once body rest
      | Ok None => finishes_once body rest
      | Raise _ => true
      end
  end.

(** The generators hold nothing of aiohttp: the connection contexts are
    those of [w]. *)
Definition released (w : Connections) (st : async_generator * Connections) : Prop :=
  snd st = w.

(** Where a non-blocking generator can be: not started and holding
    nothing, parked inside its two [async with] blocks, or finished and
    holding nothing. *)
Inductive reachable (response : ClientResponse) (w : Connections)
  : async_generator * Connections -> Prop :=
| reach_created : reachable response w (ACreated response, w)
| reach_suspended (rest : list bytes) : reachable response w (ASuspended rest, enter w)
| reach_finished : reachable response w (AFinished, w).

(** ** Sample lines

    The lines of the end-to-end scenarios: two token events, a finish
    event, a keep-alive comment, a token event with a line feed left on
    it, as the non-blocking path receives it, one with the characters
    [/n] left on it, a line that is not JSON, and two finish events without a
    token count. *)
Definition token_Hi : bytes := b (dq "data:{'token':{'text':'Hi'}}").
Definition token_bang : bytes := b (dq "data:{'token':{'text':'!'}}").
Definition finish_stop : bytes := b (dq "data:{'finishReason':'stop','generatedTokens':2}").
Definition keep_alive : bytes := b ": ping".
Definition token_Hi_newline : bytes := b (dq "data:{'token':{'text':'Hi'}}" ++ nl)%string.
Definition token_Hi_slash_n : bytes := b (dq "data:{'token':{'text':'Hi'}}/n").
Definition bad_json : bytes := b "data:{bad json".
Definition finish_no_count : bytes := b (dq "data:{'finishReason':'stop'}").
Definition finish_length_only : bytes := b (dq "data:{'finishReason':'length'}").

Definition frame_Hi : StreamingResponse := mkStreamingResponse (VStr "Hi") VNone VNone.
Definition frame_bang : StreamingResponse := mkStreamingResponse (VStr "!") VNone VNone.
Definition frame_stop : StreamingResponse :=
  mkStreamingResponse (VStr EmptyString) (VStr "stop") (VInt 2).

(** A response with status 404 and a JSON body, for each library. *)
Definition not_found : Response := mkResponse 404 [b (dq "{'detail':'Not Found'}")].
Definition anot_found : ClientResponse :=
  mkClientResponse 404 (Some (VDict [("detail", VStr "Not Found")]))
    [b (dq "{'detail':'Not Found'}")].

(** No connection context of aiohttp is open. *)
Definition idle : Connections := mkConnections 0 0.

(** * The rest of the client *)

(** ** The URL validator *)

(** [s.endswith(suffix)] *)
Definition endswith (s suffix : str) : bool :=
  (String.length suffix <=? String.length s)%nat &&
  String.eqb (PyStr.drop (String.length s - String.length suffix) s) suffix.

Definition API_VERSION : str := "v1".

(** [Lisa.validate_url] (lines 54-60): trailing slashes are stripped, and
    the API version is appended behind a slash unless the stripped URL
    already ends with it. *)
Definition validate_url (v : str) : str :=
  let url := PyStr.rstrip v "/" in
  if negb (endswith url API_VERSION) then (url ++ "/" ++ API_VERSION)%string
  else url.

(** ** More vocabulary for the generators *)

(** Every character of [t] belongs to the set [chars]. *)
Fixpoint all_in (t chars : str) : bool :=
  match t with
  | EmptyString => true
  | String c t' => PyStr.mem c chars && all_in t' chars
  end.

(** The lines that carry the marker. *)
Definition marked (lines : list bytes) : list bytes :=
  filter (fun resp_line => bytes_startswith resp_line (b "data:")) lines.

(** What a caller can do with an asynchronous generator. *)
Inductive operation : Type :=
| DoAnext
| DoAclose.

(** The state after the caller has done [ops], in order. *)
Fixpoint after_operations (loads : str -> res value) (ops : list operation)
  (st : async_generator * Connections) : async_generator * Connections :=
  match ops with
  | [] => st
  | DoAnext :: ops' => after_operations loads ops' (snd (anext loads st))
  | DoAclose :: ops' => after_operations loads ops' (aclose st)
  end.

(** ** Requests that are not streamed *)

Module types.

(** [lisapy/types.py] is not among the sources.  The [Response] it
    declares is held as the constructor call the client makes, by its
    three keyword arguments, each holding the object passed. *)
Record Response : Type := mkResponse {
  generated_text : value;
  generated_tokens : value;
  finish_reason : value
}.

End types.

(** The first key of [keys] that [items] lacks. *)
Fixpoint first_missing (keys : list str) (items : list (str * value)) : option str :=
  match keys with
  | [] => None
  | key :: keys' =>
      match PyObj.lookup key items with
      | Some _ => first_missing keys' items
      | None => Some key
      end
  end.

Section Requests.

(** [response.json()] on a response of requests. *)
Variable response_json : Response -> res value.

(** [Lisa.generate], from the response of the POST on (lines 182-192):
    what it prints, and what it returns or raises. *)
Definition generate (response : Response) : list Response * res types.Response :=
  if (status_code response =? 200)%Z then
    ([],
     output <- response_json response ;;
     text <- PyObj.getitem output "generatedText" ;;
     count <- PyObj.getitem output "generatedTokens" ;;
     reason <- PyObj.getitem output "finishReason" ;;
     Ok (types.mkResponse text count reason))
  else
    ([response], Raise (parse_error (status_code response) (OfRequests response))).

(** [Lisa.agenerate], from the response of the POST on (lines 225-234):
    the body is read as JSON before the status is looked at. *)
Definition agenerate (response : ClientResponse) : res types.Response :=
  output <- await_json response ;;
  st <- ClientResponse_getattr response "status" ;;
  if (st =? 200)%Z then
    text <- PyObj.getitem output "generatedText" ;;
    count <- PyObj.getitem output "generatedTokens" ;;
    reason <- PyObj.getitem output "finishReason" ;;
    Ok (types.mkResponse text count reason)
  else
    code <- ClientResponse_getattr response "status_code" ;;
    Raise (parse_error code (OfAiohttp response)).

(** [Lisa.embed], from the response of the POST on (lines 354-359). *)
Definition embed (response : Response) : res value :=
  if (status_code response =? 200)%Z then
    output <- response_json response ;;
    PyObj.getitem output "embeddings"
  else
    Raise (parse_error (status_code response) (OfRequests response)).

(** [Lisa.aembed], from the response of the POST on (lines 388-394). *)
Definition aembed (response : ClientResponse) : res value :=
  st <- ClientResponse_getattr response "status" ;;
  if negb (st =? 200)%Z then
    output <- await_json response ;;
    code <- ClientResponse_getattr response "status_code" ;;
    Raise (parse_error code (OfAiohttp response))
  else
    output <- await_json response ;;
    PyObj.getitem output "embeddings".

End Requests.

(** ** The model catalogue *)

(** Whether an octet continues a UTF-8 sequence. *)
Definition is_continuation (c : ascii) : bool :=
  (128 <=? N_of_ascii c)%N && (N_of_ascii c <=? 191)%N.

(** The characters of a [str], each with all its octets. *)
Fixpoint chars (s : str) : list str :=
  match s with
  | EmptyString => []
  | String c r =>
      let following := chars r in
      match r with
      | String d _ =>
          if is_continuation d then
            match following with
            | h :: t => String c h :: t
            | [] => [String c EmptyString]
            end
          else String c EmptyString :: following
      | EmptyString => String c EmptyString :: following
      end
  end.

(** [for x in obj]: the elements of a list, the keys of a dict, the
    characters of a string; the other objects are not iterable. *)
Definition py_iter (obj : value) : res (list value) :=
  match obj with
  | VList items => Ok items
  | VDict items => Ok (map (fun kv => VStr (fst kv)) items)
  | VStr s => Ok (map VStr (chars s))
  | VNone | VBool _ | VInt _ | VFloat _ => Raise TypeError
  end.

(** [obj.items()]: only a dict has the method. *)
Definition py_items (obj : value) : res (list (str * value)) :=
  match obj with
  | VDict items => Ok items
  | _ => Raise (AttributeError "items")
  end.

(** A loop that collects what [f] returns on each element, and stops at
    the first element on which [f] raises. *)
Fixpoint collect {A B : Type} (f : A -> res B) (l : list A) : res (list B) :=
  match l with
  | [] => Ok []
  | x :: l' =>
      y <- f x ;;
      ys <- collect f l' ;;
      Ok (y :: ys)
  end.

(** The same, for a loop whose body gives a list each time. *)
Fixpoint collect_all {A B : Type} (f : A -> res (list B)) (l : list A) : res (list B) :=
  match l with
  | [] => Ok []
  | x :: l' =>
      ys <- f x ;;
      zs <- collect_all f l' ;;
      Ok (ys ++ zs)
  end.

Section Catalogue.

(** [FoundationModel], of [lisapy/types.py], and its [from_dict]: the
    file is not among the sources, and both are taken as they come. *)
Variable FoundationModel : Type.
Variable from_dict : value -> res FoundationModel.

(** [response.json()] on a response of requests. *)
Variable response_json : Response -> res value.

(** [self._session.get(url)]: the response of the server to a GET. *)
Variable get : str -> Response.

(** What an f-string writes for an object that is not a string. *)
Variable format_object : value -> str.

(** [self.url] *)
Variable url : str.

(** What an f-string writes for [obj]: a string stands for itself. *)
Definition formatted (obj : value) : str :=
  match obj with
  | VStr s => s
  | _ => format_object obj
  end.

(** [Lisa.describe_model] (lines 91-95); the two arguments are put in
    the query string as they are. *)
Definition describe_model (provider model_name : value) : res FoundationModel :=
  let response :=
    get (url ++ "/describeModel?provider=" ++ formatted provider
             ++ "&modelName=" ++ formatted model_name)%string in
  if (status_code response =? 200)%Z then
    output <- response_json response ;;
    from_dict output
  else
    Raise (parse_error (status_code response) (OfRequests response)).

(** [describe_model] on an entry of the catalogue: a provider, which is
    a key of the listing, and a model name. *)
Definition describe_entry (entry : str * value) : res FoundationModel :=
  describe_model (VStr (fst entry)) (snd entry).

(** The comprehension of the three listing methods (lines 108-113,
    129-134 and 150-155): the three nested loops, over the model types,
    over the providers of each, over the model names of each provider,
    with one [describe_model] for each name. *)
Definition described (json_models : value) : res (list FoundationModel) :=
  by_type <- py_items json_models ;;
  collect_all (fun type_and_providers : str * value =>
    by_provider <- py_items (snd type_and_providers) ;;
    collect_all (fun provider_and_names : str * value =>
      model_names <- py_iter (snd provider_and_names) ;;
      collect (fun model_name =>
        describe_model (VStr (fst provider_and_names)) model_name) model_names)
      by_provider)
    by_type.

(** [Lisa.list_models] (lines 105-116) *)
Definition list_models : res (list FoundationModel) :=
  let response := get (url ++ "/listModels")%string in
  if (status_code response =? 200)%Z then
    json_models <- response_json response ;;
    described json_models
  else
    Raise (parse_error (status_code response) (OfRequests response)).

(** [Lisa.list_textgen_models] (lines 126-137) *)
Definition list_textgen_models : res (list FoundationModel) :=
  let response := get (url ++ "/listModels?modelTypes=textgen")%string in
  if (status_code response =? 200)%Z then
    json_models <- response_json response ;;
    described json_models
  else
    Raise (parse_error (status_code response) (OfRequests response)).

(** [Lisa.list_embedding_models] (lines 147-158) *)
Definition list_embedding_models : res (list FoundationModel) :=
  let response := get (url ++ "/listModels?modelTypes=embedding")%string in
  if (status_code response =? 200)%Z then
    json_models <- response_json response ;;
    described json_models
  else
    Raise (parse_error (status_code response) (OfRequests response)).

End Catalogue.

(** A catalogue of the expected form, as the JSON object the server
    sends: model types, for each the providers, for each the names. *)
Definition catalogue (c : list (str * list (str * list value))) : value :=
  VDict (map (fun type_entry : str * list (str * list value) =>
                (fst type_entry,
                 VDict (map (fun provider_entry : str * list value =>
                               (fst provider_entry, VList (snd provider_entry)))
                            (snd type_entry))))
             c).

(** The (provider, model name) pairs of a catalogue, in its order. *)
Definition entries (c : list (str * list (str * list value))) : list (str * value) :=
  flat_map (fun type_entry : str * list (str * list value) =>
              flat_map (fun provider_entry : str * list value =>
                          map (fun model_name => (fst provider_entry, model_name))
                              (snd provider_entry))
                       (snd type_entry))
           c.

(** ** Printing tokens *)

(** The standard output: what has reached the terminal, and what waits
    in the buffer. *)
Record Stdout : Type := mkStdout {
  emitted : str;
  pending : str
}.

(** [sys.stdout.write(text)] and [sys.stdout.flush()] *)
Definition stdout_write (text : str) (out : Stdout) : Stdout :=
  mkStdout (emitted out) (pending out ++ text)%string.

Definition stdout_flush (out : Stdout) : Stdout :=
  mkStdout (emitted out ++ pending out)%string EmptyString.

(** [on_llm_new_token] (lines 34-37) *)
Definition on_llm_new_token (token : str) (out : Stdout) : Stdout :=
  stdout_flush (stdout_write token out).



(** ** Sample responses and a sample server *)

Definition number_line : bytes := b "data:7".
Definition empty_object_line : bytes := b "data:{}".
Definition token_Hi_trailing : bytes := b (dq "data:{'token':{'text':'Hi'}}/n/nn").
Definition not_utf8 : bytes := [Byte.xff].

(** The body of a successful generation, with and without its count. *)
Definition generation : list (str * value) :=
  [("generatedText", VStr "Hi!"); ("generatedTokens", VInt 2); ("finishReason", VStr "stop")].
Definition generation_no_count : list (str * value) :=
  [("generatedText", VStr "Hi!"); ("finishReason", VStr "stop")].
Definition embedding : list (str * value) :=
  [("embeddings", VList [VList [VFloat "0.5"; VFloat "0.25"]])].

Definition ok_response : Response := mkResponse 200 [].

(** A server with a catalogue of two text generation models and one
    embedding model; it knows every model but the one called [gone]. *)
Definition sample_url : str := "http://h/v1".

Definition sample_catalogue (second : str) : list (str * list (str * list value)) :=
  [("textgen", [("p", [VStr "m1"; VStr second])]); ("embedding", [("q", [VStr "e1"])])].

Definition sample_get (u : str) : Response :=
  if PyStr.startswith u (sample_url ++ "/listModels")%string then mkResponse 200 [b "catalogue"]
  else if String.eqb u (sample_url ++ "/describeModel?provider=p&modelName=gone")%string
       then mkResponse 404 []
       else mkResponse 200 [].

Definition sample_json (second : str) (r : Response) : res value :=
  match iter_lines r with
  | [] => Ok (VStr "model")
  | _ :: _ => Ok (catalogue (sample_catalogue second))
  end.

(** * Properties *)

(** ** Bytes and their decoded text *)

Lemma ascii_eqb_of_byte (x y : byte) :
  Ascii.eqb (ascii_of_byte x) (ascii_of_byte y) = Byte.eqb x y.
Proof.
  destruct (Byte.eqb x y) eqn:E.
  - apply Byte.byte_dec_bl in E. subst. apply Ascii.eqb_refl.
  - apply Ascii.eqb_neq. intro H.
    apply (f_equal byte_of_ascii) in H.
    rewrite !byte_of_ascii_of_byte in H. subst.
    rewrite (Byte.byte_dec_lb eq_refl) in E. discriminate.
Qed.

(** Decoding does not move the marker: the decoded text starts with an
    ASCII prefix exactly when the bytes start with its octets. *)
Lemma startswith_decoded (prefix line : bytes) :
  PyStr.startswith (string_of_list_byte line) (string_of_list_byte prefix)
  = bytes_startswith line prefix.
Proof.
  unfold string_of_list_byte.
  revert line. induction prefix as [|p prefix IH]; intros line.
  - reflexivity.
  - destruct line as [|x line]; [reflexivity|].
    cbn [map string_of_list_ascii PyStr.startswith bytes_startswith].
    rewrite ascii_eqb_of_byte. f_equal. apply IH.
Qed.

Lemma decode_text (line : bytes) (payload : str) :
  Utf8.decode line = Ok payload -> payload = string_of_list_byte line.
Proof.
  unfold Utf8.decode. destruct (Utf8.valid line); congruence.
Qed.

(** ** What [rstrip] removes *)

(** The set [/n] holds a slash and a letter, and no line feed: a line feed
    at the end of a text is left where it is, with all that precedes it. *)
Lemma rstrip_keeps_line_feed (s : str) :
  PyStr.rstrip (s ++ nl)%string "/n" = (s ++ nl)%string.
Proof.
  induction s as [|c s IH].
  - reflexivity.
  - cbn [String.append PyStr.rstrip]. rewrite IH.
    destruct s; reflexivity.
Qed.

(** Trailing slashes and letters n are removed, as many as there are. *)
Lemma rstrip_removes_slash (s : str) :
  PyStr.rstrip (s ++ "/")%string "/n" = PyStr.rstrip s "/n".
Proof.
  induction s as [|c s IH].
  - reflexivity.
  - cbn [String.append PyStr.rstrip]. rewrite IH. reflexivity.
Qed.

Lemma rstrip_removes_n (s : str) :
  PyStr.rstrip (s ++ "n")%string "/n" = PyStr.rstrip s "/n".
Proof.
  induction s as [|c s IH].
  - reflexivity.
  - cbn [String.append PyStr.rstrip]. rewrite IH. reflexivity.
Qed.

(** ** One line at a time *)

Section LineProperties.

Variable loads : str -> res value.

(** A line that fails to decode raises at once, whatever it holds. *)
Lemma undecodable_line_raises (line : bytes) (e : exn) :
  Utf8.decode line = Raise e -> generate_stream_body loads line = Raise e.
Proof.
  intros H. unfold generate_stream_body. cbn [PyObj.bytes_eq_str].
  rewrite H. reflexivity.
Qed.

(** A decodable line without the marker ends the body without a yield. *)
Lemma filler_line_skipped (line : bytes) (payload : str) :
  Utf8.decode line = Ok payload ->
  PyStr.startswith payload "data:" = false ->
  generate_stream_body loads line = Ok None.
Proof.
  intros Hd Hs. unfold generate_stream_body. cbn [PyObj.bytes_eq_str].
  rewrite Hd. cbn [bind]. rewrite Hs. reflexivity.
Qed.

(** On a decodable line with the marker, everything is decided by the
    object the reader returns for the text after the marker, stripped of
    its trailing slashes and letters n. *)
Lemma data_line_parsed (line : bytes) (payload : str) (json_payload : value) :
  Utf8.decode line = Ok payload ->
  PyStr.startswith payload "data:" = true ->
  loads (PyStr.rstrip (PyStr.removeprefix payload "data:") "/n") = Ok json_payload ->
  generate_stream_body loads line =
    (is_finish <- PyObj.contains json_payload "finishReason" ;;
     if (is_finish : bool) then
       reason <- PyObj.getitem json_payload "finishReason" ;;
       count <- PyObj.getitem json_payload "generatedTokens" ;;
       Ok (Some (mkStreamingResponse (VStr EmptyString) reason count))
     else
       tok <- PyObj.getitem json_payload "token" ;;
       text <- PyObj.getitem tok "text" ;;
       Ok (Some (mkStreamingResponse text VNone VNone))).
Proof.
  intros Hd Hs Hl. unfold generate_stream_body. cbn [PyObj.bytes_eq_str].
  rewrite Hd. cbn [bind]. rewrite Hs, Hl. reflexivity.
Qed.

(** A decodable line with the marker whose text the reader refuses raises
    what the reader raises. *)
Lemma data_line_refused (line : bytes) (payload : str) (e : exn) :
  Utf8.decode line = Ok payload ->
  PyStr.startswith payload "data:" = true ->
  loads (PyStr.rstrip (PyStr.removeprefix payload "data:") "/n") = Raise e ->
  generate_stream_body loads line = Raise e.
Proof.
  intros Hd Hs Hl. unfold generate_stream_body. cbn [PyObj.bytes_eq_str].
  rewrite Hd. cbn [bind]. rewrite Hs, Hl. reflexivity.
Qed.

(** C5: a response line that does not start with the [data:] marker
    makes neither loop body yield a frame; when the line decodes as UTF-8
    the body just ends, so that the loop moves on to the next line. *)
Theorem filler_lines_produce_no_frame (line : bytes) :
  bytes_startswith line (b "data:") = false ->
  (forall frame,
      generate_stream_body loads line <> Ok (Some frame) /\
      agenerate_stream_body loads line <> Ok (Some frame)) /\
  (forall payload, Utf8.decode line = Ok payload ->
      generate_stream_body loads line = Ok None /\
      agenerate_stream_body loads line = Ok None).
Proof.
  intros Hm.
  assert (Hskip : forall payload, Utf8.decode line = Ok payload ->
                   generate_stream_body loads line = Ok None).
  { intros payload Hd. apply filler_line_skipped with (payload := payload); [exact Hd|].
    rewrite (decode_text _ _ Hd).
    change "data:" with (string_of_list_byte (b "data:")).
    rewrite startswith_decoded. exact Hm. }
  split.
  - intros frame. change (agenerate_stream_body loads line) with (generate_stream_body loads line).
    destruct (Utf8.decode line) as [payload|e] eqn:Hd.
    + rewrite (Hskip payload eq_refl). split; discriminate.
    + rewrite (undecodable_line_raises line e Hd). split; discriminate.
  - intros payload Hd. change (agenerate_stream_body loads line) with (generate_stream_body loads line). split; apply (Hskip payload Hd).
Qed.

(** C6: a [data:] line whose payload is a token event, an object with no
    [finishReason] key whose [token] is an object with a [text], makes
    each loop body yield exactly one frame: a TokenFrame whose token is
    that text, its finish reason and token count absent. *)
Theorem token_payload_yields_token_frame
  (line : bytes) (payload : str) (items tok : list (str * value)) (text : value) :
  Utf8.decode line = Ok payload ->
  PyStr.startswith payload "data:" = true ->
  loads (PyStr.rstrip (PyStr.removeprefix payload "data:") "/n") = Ok (VDict items) ->
  PyObj.lookup "finishReason" items = None ->
  PyObj.lookup "token" items = Some (VDict tok) ->
  PyObj.lookup "text" tok = Some text ->
  generate_stream_body loads line = Ok (Some (mkStreamingResponse text VNone VNone)) /\
  agenerate_stream_body loads line = Ok (Some (mkStreamingResponse text VNone VNone)) /\
  is_token_frame (mkStreamingResponse text VNone VNone) = true.
Proof.
  intros Hd Hs Hl Hf Ht Hx. change (agenerate_stream_body loads line) with (generate_stream_body loads line).
  rewrite (data_line_parsed line payload (VDict items) Hd Hs Hl).
  cbn [PyObj.contains PyObj.getitem bind]. rewrite Hf. cbn [bind].
  rewrite Ht. cbn [PyObj.getitem bind]. rewrite Hx. cbn [bind].
  repeat split.
Qed.

(** C7, as the code has it: a [data:] line whose payload is an object
    with a [finishReason] key and a [generatedTokens] key makes each loop
    body yield exactly one frame: its finish reason and token count are
    the payload's two values as they are, and its token is the empty
    string. *)
Theorem finish_payload_yields_final_frame
  (line : bytes) (payload : str) (items : list (str * value)) (reason count : value) :
  Utf8.decode line = Ok payload ->
  PyStr.startswith payload "data:" = true ->
  loads (PyStr.rstrip (PyStr.removeprefix payload "data:") "/n") = Ok (VDict items) ->
  PyObj.lookup "finishReason" items = Some reason ->
  PyObj.lookup "generatedTokens" items = Some count ->
  generate_stream_body loads line
    = Ok (Some (mkStreamingResponse (VStr EmptyString) reason count)) /\
  agenerate_stream_body loads line
    = Ok (Some (mkStreamingResponse (VStr EmptyString) reason count)).
Proof.
  intros Hd Hs Hl Hf Hg. change (agenerate_stream_body loads line) with (generate_stream_body loads line).
  rewrite (data_line_parsed line payload (VDict items) Hd Hs Hl).
  cbn [PyObj.contains PyObj.getitem bind]. rewrite Hf. cbn [bind].
  rewrite Hg. cbn [bind]. split; reflexivity.
Qed.

(** C9: a [data:] line whose payload is an object with a [finishReason]
    key and no [generatedTokens] key makes each loop body raise
    KeyError for [generatedTokens], and so yield no frame. *)
Theorem finish_without_count_raises_key_error
  (line : bytes) (payload : str) (items : list (str * value)) (reason : value) :
  Utf8.decode line = Ok payload ->
  PyStr.startswith payload "data:" = true ->
  loads (PyStr.rstrip (PyStr.removeprefix payload "data:") "/n") = Ok (VDict items) ->
  PyObj.lookup "finishReason" items = Some reason ->
  PyObj.lookup "generatedTokens" items = None ->
  generate_stream_body loads line = Raise (KeyError "generatedTokens") /\
  agenerate_stream_body loads line = Raise (KeyError "generatedTokens").
Proof.
  intros Hd Hs Hl Hf Hg. change (agenerate_stream_body loads line) with (generate_stream_body loads line).
  rewrite (data_line_parsed line payload (VDict items) Hd Hs Hl).
  cbn [PyObj.contains PyObj.getitem bind]. rewrite Hf. cbn [bind].
  rewrite Hg. cbn [bind]. split; reflexivity.
Qed.

(** C10: on every response line the blocking loop body and the
    non-blocking one have the same outcome: the same frame, no frame, or
    the same exception. *)
Theorem blocking_and_nonblocking_decode_alike (line : bytes) :
  generate_stream_body loads line = agenerate_stream_body loads line.
Proof.
  unfold generate_stream_body, agenerate_stream_body.
  destruct (PyObj.bytes_eq_str line ("b" ++ nl)%string); [reflexivity|].
  destruct (Utf8.decode line) as [payload|e]; [|reflexivity].
  cbn [bind]. destruct (PyStr.startswith payload "data:"); reflexivity.
Qed.

End LineProperties.

(** ** Whole streams *)

Section StreamProperties.

Variable loads : str -> res value.

Section ForLoop.

Variable body : bytes -> res (option StreamingResponse).

(** A loop that got through its first lines goes on with the others. *)
Lemma for_loop_app (before after : list bytes) (frames : list StreamingResponse) :
  for_loop body before = (frames, Returned) ->
  for_loop body (before ++ after)
  = (frames ++ fst (for_loop body after), snd (for_loop body after)).
Proof.
  revert frames. induction before as [|l before IH]; intros frames H; cbn in *.
  - injection H as <-. cbn. destruct (for_loop body after); reflexivity.
  - destruct (body l) as [[frame|]|e]; [| auto | discriminate].
    destruct (for_loop body before) as [fs c] eqn:E.
    injection H as <- ->. rewrite (IH fs eq_refl). reflexivity.
Qed.

(** An exception ends the loop where it is raised: the lines behind it
    are not read. *)
Lemma for_loop_raise (l : bytes) (after : list bytes) (e : exn) :
  body l = Raise e -> for_loop body (l :: after) = ([], Raised e).
Proof. intros H. cbn. rewrite H. reflexivity. Qed.

Lemma for_loop_error_after (before after : list bytes) (l : bytes)
  (frames : list StreamingResponse) (e : exn) :
  for_loop body before = (frames, Returned) ->
  body l = Raise e ->
  for_loop body (before ++ l :: after) = (frames, Raised e).
Proof.
  intros Hb Hl. rewrite (for_loop_app before (l :: after) frames Hb).
  rewrite (for_loop_raise l after e Hl). cbn. rewrite app_nil_r. reflexivity.
Qed.

End ForLoop.

(** Taking the frames one by one from a parked blocking generator gives
    the frames of the loop, then its end. *)
Lemma drain_suspended (self : Lisa) (lines : list bytes) :
  forall (fuel : nat) (frames : list StreamingResponse) (c : completion),
    for_loop (generate_stream_body loads) lines = (frames, c) ->
    List.length frames < fuel ->
    drain loads fuel (self, Suspended lines) = (frames, Some c).
Proof.
  induction lines as [|l lines IH]; intros fuel frames c H Hf.
  - cbn in H. injection H as <- <-. destruct fuel; [cbn in Hf; lia|]. reflexivity.
  - destruct fuel as [|fuel]; [lia|].
    cbn [for_loop] in H. cbn [drain next resume].
    destruct (generate_stream_body loads l) as [[frame|]|e] eqn:Hl; cbn [fst snd] in H.
    + destruct (for_loop (generate_stream_body loads) lines) as [fs c'] eqn:E.
      injection H as <- <-. cbn in Hf.
      rewrite (IH fuel fs c' eq_refl); [reflexivity | lia].
    + specialize (IH (S fuel) frames c H Hf). cbn [drain next] in IH. exact IH.
    + injection H as <- <-. reflexivity.
Qed.

(** The same for a parked non-blocking generator. *)
Lemma adrain_suspended (w : Connections) (lines : list bytes) :
  forall (fuel : nat) (frames : list StreamingResponse) (c : completion),
    for_loop (agenerate_stream_body loads) lines = (frames, c) ->
    List.length frames < fuel ->
    adrain loads fuel (ASuspended lines, w) = (frames, Some c).
Proof.
  induction lines as [|l lines IH]; intros fuel frames c H Hf.
  - cbn in H. injection H as <- <-. destruct fuel; [cbn in Hf; lia|]. reflexivity.
  - destruct fuel as [|fuel]; [lia|].
    cbn [for_loop] in H. cbn [adrain anext resume].
    destruct (agenerate_stream_body loads l) as [[frame|]|e] eqn:Hl; cbn [fst snd] in H.
    + destruct (for_loop (agenerate_stream_body loads) lines) as [fs c'] eqn:E.
      injection H as <- <-. cbn in Hf.
      rewrite (IH fuel fs c' eq_refl); [reflexivity | lia].
    + specialize (IH (S fuel) frames c H Hf). cbn [adrain anext] in IH. exact IH.
    + injection H as <- <-. reflexivity.
Qed.

(** Iterating [generate_stream] to its end, one [next] at a time, gives
    the frames and the end of its run; one call more than there are
    frames is enough. *)
Lemma drain_generate_stream (self : Lisa) (response : Response) (fuel : nat) :
  List.length (fst (generate_stream loads response)) < fuel ->
  drain loads fuel (self, Created response)
  = (fst (generate_stream loads response), Some (snd (generate_stream loads response))).
Proof.
  intros Hf. destruct fuel as [|fuel]; [lia|].
  unfold generate_stream in *. cbn [drain next].
  destruct (status_code response =? 200)%Z.
  - pose proof (drain_suspended self (iter_lines response) (S fuel)) as H.
    destruct (for_loop (generate_stream_body loads) (iter_lines response)) as [fs c].
    specialize (H fs c eq_refl Hf). cbn [drain next] in H. exact H.
  - reflexivity.
Qed.

Lemma adrain_agenerate_stream (w : Connections) (response : ClientResponse) (fuel : nat) :
  List.length (fst (agenerate_stream loads response)) < fuel ->
  adrain loads fuel (ACreated response, w)
  = (fst (agenerate_stream loads response), Some (snd (agenerate_stream loads response))).
Proof.
  intros Hf. destruct fuel as [|fuel]; [lia|].
  unfold agenerate_stream in *. cbn [adrain anext].
  destruct (ClientResponse_getattr response "status") as [st|e]; [|reflexivity].
  destruct (negb (st =? 200)%Z); [reflexivity|].
  pose proof (adrain_suspended (enter w) (content response) (S fuel)) as H.
  destruct (for_loop (agenerate_stream_body loads) (content response)) as [fs c].
  specialize (H fs c eq_refl Hf). cbn [adrain anext] in H. exact H.
Qed.

(** A status other than 200 on the blocking path: the Error Mapper is
    called on the status code and the response, what it returns is raised,
    and no line is read. *)
Lemma generate_stream_status_failure (response : Response) :
  status_code response <> 200%Z ->
  generate_stream loads response
  = ([], Raised (parse_error (status_code response) (OfRequests response))).
Proof.
  intros H. unfold generate_stream.
  destruct (Z.eqb_spec (status_code response) 200); [contradiction | reflexivity].
Qed.

(** A status other than 200 on the non-blocking path: no line is read
    either, but the exception is never one of the Error Mapper. *)
Lemma agenerate_stream_status_failure (response : ClientResponse) :
  status response <> 200%Z ->
  exists e, agenerate_stream loads response = ([], Raised e) /\
            (e = AttributeError "status_code" \/ e = ResponseJsonError).
Proof.
  intros H. unfold agenerate_stream.
  cbn [ClientResponse_getattr String.eqb Ascii.eqb Bool.eqb].
  destruct (Z.eqb_spec (status response) 200); [contradiction|]. cbn [negb].
  unfold await_json. destruct (json response); cbn [bind raised].
  - exists (AttributeError "status_code"). split; [reflexivity | left; reflexivity].
  - exists ResponseJsonError. split; [reflexivity | right; reflexivity].
Qed.

(** When a [data:] line whose text, once trimmed by [rstrip], the reader
    refuses as JSON comes after lines the loop got through, each
    generator ends by raising the decode error at that line: the frames
    of the earlier lines are the ones the caller has received, in order,
    the lines behind are not read, and taking the frames one at a time
    the caller gets the error from the call that follows the last of
    them. *)
Theorem decode_error_raised_where_consumed
  (before after : list bytes) (line : bytes) (payload : str)
  (frames : list StreamingResponse) (j : option value) (self : Lisa) (w : Connections) :
  for_loop (generate_stream_body loads) before = (frames, Returned) ->
  Utf8.decode line = Ok payload ->
  PyStr.startswith payload "data:" = true ->
  loads (PyStr.rstrip (PyStr.removeprefix payload "data:") "/n") = Raise JSONDecodeError ->
  let lines := before ++ line :: after in
  generate_stream loads (mkResponse 200 lines) = (frames, Raised JSONDecodeError) /\
  agenerate_stream loads (mkClientResponse 200 j lines) = (frames, Raised JSONDecodeError) /\
  drain loads (S (List.length frames)) (self, Created (mkResponse 200 lines))
    = (frames, Some (Raised JSONDecodeError)) /\
  adrain loads (S (List.length frames)) (ACreated (mkClientResponse 200 j lines), w)
    = (frames, Some (Raised JSONDecodeError)).
Proof.
  intros Hb Hd Hs Hl lines.
  pose proof (data_line_refused loads line payload JSONDecodeError Hd Hs Hl) as Hbad.
  assert (Hg : generate_stream loads (mkResponse 200 lines)
               = (frames, Raised JSONDecodeError)).
  { unfold generate_stream. cbn [status_code iter_lines Z.eqb Pos.eqb].
    apply for_loop_error_after; assumption. }
  assert (Ha : agenerate_stream loads (mkClientResponse 200 j lines)
               = (frames, Raised JSONDecodeError)).
  { unfold agenerate_stream. cbn [ClientResponse_getattr String.eqb Ascii.eqb Bool.eqb status content Z.eqb Pos.eqb negb].
    apply for_loop_error_after; assumption. }
  repeat split; [exact Hg | exact Ha | |].
  - rewrite drain_generate_stream; rewrite Hg; [reflexivity | cbn; lia].
  - rewrite adrain_agenerate_stream; rewrite Ha; [reflexivity | cbn; lia].
Qed.

Lemma silent_loop_yields_nothing (body : bytes -> res (option StreamingResponse))
  (lines : list bytes) :
  silent body lines = true -> fst (for_loop body lines) = [].
Proof.
  induction lines as [|l lines IH]; intros H; [reflexivity|].
  cbn [silent forallb] in H. apply andb_true_iff in H. destruct H as [Hl Hr].
  cbn [for_loop]. destruct (body l) as [[frame|]|e]; [discriminate | | reflexivity].
  apply IH. exact Hr.
Qed.

Lemma finishes_once_well_formed (body : bytes -> res (option StreamingResponse))
  (lines : list bytes) :
  finishes_once body lines = true -> tokens_then_final (fst (for_loop body lines)) = true.
Proof.
  induction lines as [|l lines IH]; intros H; [reflexivity|].
  cbn [finishes_once] in H. cbn [for_loop].
  destruct (body l) as [[frame|]|e]; [| auto | reflexivity].
  destruct (for_loop body lines) as [fs c] eqn:E. cbn [fst] in *.
  unfold is_final_frame in H.
  destruct (is_token_frame frame) eqn:Ht; cbn [negb] in H.
  - specialize (IH H). cbn [tokens_then_final]. destruct fs; [reflexivity|].
    rewrite Ht. exact IH.
  - apply silent_loop_yields_nothing in H. rewrite E in H. cbn in H. subst fs. reflexivity.
Qed.

(** C1, as the code has it: when no line that makes the loop body yield
    follows a line that made it yield a FinalFrame, the frames of each
    generator are TokenFrames followed by at most one FinalFrame.  The
    generators themselves read on after a FinalFrame. *)
Theorem frames_well_formed_when_server_finishes_once
  (code : Z) (j : option value) (lines : list bytes) :
  finishes_once (generate_stream_body loads) lines = true ->
  tokens_then_final (fst (generate_stream loads (mkResponse code lines))) = true /\
  tokens_then_final (fst (agenerate_stream loads (mkClientResponse code j lines))) = true.
Proof.
  intros H. split.
  - unfold generate_stream. cbn [status_code iter_lines].
    destruct (code =? 200)%Z; [|reflexivity].
    apply finishes_once_well_formed. exact H.
  - unfold agenerate_stream.
    cbn [ClientResponse_getattr String.eqb Ascii.eqb Bool.eqb status content].
    destruct (negb (code =? 200)%Z); [reflexivity|].
    apply finishes_once_well_formed. exact H.
Qed.

(** *** Connections *)

Lemma leave_enter (w : Connections) : leave (enter w) = w.
Proof. destruct w. reflexivity. Qed.

Lemma anext_reachable (response : ClientResponse) (w : Connections)
  (st : async_generator * Connections) :
  reachable response w st ->
  reachable response w (snd (anext loads st)) /\
  ((forall frame, fst (anext loads st) <> Yielded frame) ->
   snd (anext loads st) = (AFinished, w)).
Proof.
  intros H. destruct H as [|rest|]; cbn [anext].
  - destruct (ClientResponse_getattr response "status") as [st|e];
      [|rewrite leave_enter; split; [constructor | reflexivity]].
    destruct (negb (st =? 200)%Z);
      [rewrite leave_enter; split; [constructor | reflexivity]|].
    destruct (resume (agenerate_stream_body loads) (content response)) as [[frame| |e] rest];
      cbn [fst snd]; rewrite ?leave_enter; split; try constructor; try reflexivity.
    intros Hn. exfalso. apply (Hn frame). reflexivity.
  - destruct (resume (agenerate_stream_body loads) rest) as [[frame| |e] rest'];
      cbn [fst snd]; rewrite ?leave_enter; split; try constructor; try reflexivity.
    intros Hn. exfalso. apply (Hn frame). reflexivity.
  - split; [constructor | reflexivity].
Qed.

Lemma after_anext_reachable (response : ClientResponse) (w : Connections) (n : nat) :
  forall st, reachable response w st -> reachable response w (after_anext loads n st).
Proof.
  induction n as [|n IH]; intros st H; [exact H|].
  cbn [after_anext]. apply IH. apply anext_reachable. exact H.
Qed.

Lemma aclose_releases (response : ClientResponse) (w : Connections)
  (st : async_generator * Connections) :
  reachable response w st -> aclose st = (AFinished, w).
Proof.
  intros H. destruct H; cbn [aclose]; rewrite ?leave_enter; reflexivity.
Qed.

Lemma after_next_keeps_client (n : nat) :
  forall (st : Lisa * generator), fst (after_next loads n st) = fst st.
Proof.
  induction n as [|n IH]; intros [self g]; [reflexivity|].
  cbn [after_next]. rewrite IH. cbn [next].
  destruct g as [response|rest|].
  - destruct (status_code response =? 200)%Z; [|reflexivity].
    destruct (resume (generate_stream_body loads) (iter_lines response)) as [[frame| |e] rest];
      reflexivity.
  - destruct (resume (generate_stream_body loads) rest) as [[frame| |e] rest']; reflexivity.
  - reflexivity.
Qed.

(** C8, as the code has it: whatever the number of frames the caller has
    asked of [agenerate_stream] for, the connection contexts the
    generator entered are released once it is closed with [aclose], and
    once its body ends, by returning or by raising; [generate_stream]
    leaves the session of the client as it is, and [Lisa.__del__] closes
    it. *)
Theorem connections_released_when_generator_ends
  (response : ClientResponse) (w : Connections) (r : Response) (self : Lisa) (n : nat) :
  let st := after_anext loads n (ACreated response, w) in
  released w (aclose st) /\
  ((forall frame, fst (anext loads st) <> Yielded frame) ->
   released w (snd (anext loads st))) /\
  fst (after_next loads n (self, Created r)) = self /\
  session_closed (Lisa_del (fst (after_next loads n (self, Created r)))) = true.
Proof.
  intros st.
  assert (Hr : reachable response w st)
    by (apply after_anext_reachable; constructor).
  unfold released. repeat split.
  - rewrite (aclose_releases response w st Hr). reflexivity.
  - intros Hn. destruct (anext_reachable response w st Hr) as [_ Hend].
    rewrite (Hend Hn). reflexivity.
  - apply after_next_keeps_client.
Qed.

End StreamProperties.

(** ** The scenarios, with the JSON reader *)

(** Scenario A: two token events and a finish event. *)
Example scenario_tokens_then_finish :
  generate_stream Json.loads (mkResponse 200 [token_Hi; token_bang; finish_stop])
  = ([frame_Hi; frame_bang; frame_stop], Returned).
Proof. vm_compute. reflexivity. Qed.

(** The same stream on the non-blocking path, where each line arrives with
    its line feed and keep-alive lines come in between. *)
Example scenario_tokens_then_finish_async :
  agenerate_stream Json.loads
    (mkClientResponse 200 None [keep_alive; token_Hi_newline; b nl; finish_stop])
  = ([frame_Hi; frame_stop], Returned).
Proof. vm_compute. reflexivity. Qed.

(** Scenario C: a line that is not JSON, after a token event. *)
Example scenario_bad_json :
  generate_stream Json.loads (mkResponse 200 [token_Hi; bad_json; token_bang])
  = ([frame_Hi], Raised JSONDecodeError).
Proof. vm_compute. reflexivity. Qed.

(** C1, counterexample: a server that sends a token event after its
    finish event gets both frames passed on, the FinalFrame first. *)
Lemma frames_follow_a_final_frame :
  generate_stream Json.loads (mkResponse 200 [finish_stop; token_Hi])
    = ([frame_stop; frame_Hi], Returned) /\
  agenerate_stream Json.loads (mkClientResponse 200 None [finish_stop; token_Hi])
    = ([frame_stop; frame_Hi], Returned) /\
  is_final_frame frame_stop = true /\
  tokens_then_final [frame_stop; frame_Hi] = false.
Proof. vm_compute. repeat split; reflexivity. Qed.

(** C2, at the failing inputs: the argument [/n] of [rstrip] is the set of
    the two characters slash and n, not a line feed.  A line feed left on
    the line is still on the text handed to the reader, and a line that
    ends in [/n] after its JSON object has those two characters removed
    and yields a frame, although the text behind its marker is not
    JSON. *)
Theorem rstrip_trims_slash_and_n_not_newlines :
  PyStr.rstrip (PyStr.removeprefix (dq "data:{'token':{'text':'Hi'}}" ++ nl)%string "data:") "/n"
    = (dq "{'token':{'text':'Hi'}}" ++ nl)%string /\
  PyStr.rstrip (PyStr.removeprefix (dq "data:{'token':{'text':'Hi'}}/n") "data:") "/n"
    = dq "{'token':{'text':'Hi'}}" /\
  Json.loads (dq "{'token':{'text':'Hi'}}/n") = Raise JSONDecodeError /\
  generate_stream_body Json.loads token_Hi_slash_n = Ok (Some frame_Hi) /\
  agenerate_stream_body Json.loads token_Hi_slash_n = Ok (Some frame_Hi).
Proof. vm_compute. repeat split; reflexivity. Qed.

(** C3, at the failing input: on a response with status 404 the blocking
    generator raises what the Error Mapper returns for the status code
    and the response, and yields nothing; the non-blocking one yields
    nothing either, but raises AttributeError on reading
    [response.status_code] and never calls the Error Mapper. *)
Theorem status_404_mapped_only_on_the_blocking_path :
  generate_stream Json.loads not_found
    = ([], Raised (parse_error 404 (OfRequests not_found))) /\
  agenerate_stream Json.loads anot_found
    = ([], Raised (AttributeError "status_code")).
Proof. vm_compute. split; reflexivity. Qed.


(** C7, counterexample: a payload that has a [finishReason] field and
    nothing else is taken for a finish event and yields no frame at all:
    the lookup of [generatedTokens] raises. *)
Lemma finish_reason_alone_yields_no_frame :
  generate_stream_body Json.loads finish_length_only = Raise (KeyError "generatedTokens") /\
  agenerate_stream_body Json.loads finish_length_only = Raise (KeyError "generatedTokens") /\
  (forall frame, generate_stream_body Json.loads finish_length_only <> Ok (Some frame)) /\
  (forall frame, agenerate_stream_body Json.loads finish_length_only <> Ok (Some frame)).
Proof.
  assert (H : generate_stream_body Json.loads finish_length_only
              = Raise (KeyError "generatedTokens")) by (vm_compute; reflexivity).
  assert (Ha : agenerate_stream_body Json.loads finish_length_only
               = Raise (KeyError "generatedTokens")) by (vm_compute; reflexivity).
  repeat split; try assumption; intros frame; [rewrite H | rewrite Ha]; discriminate.
Qed.

(** C8, counterexample: a caller that takes the first frame of a
    two-frame stream from [agenerate_stream] and stops there leaves the
    generator parked at its [yield], inside both [async with] blocks: the
    session and the response are still held.  On the blocking path the
    session of the client is still open when the stream has been read to
    its end. *)
Lemma parked_generator_holds_its_connections :
  after_anext Json.loads 1 (ACreated (mkClientResponse 200 None [token_Hi; token_bang]), idle)
    = (ASuspended [token_bang], mkConnections 1 1) /\
  ~ released idle
      (after_anext Json.loads 1
         (ACreated (mkClientResponse 200 None [token_Hi; token_bang]), idle)) /\
  after_next Json.loads 3 (Lisa_init, Created (mkResponse 200 [token_Hi; token_bang]))
    = (mkLisa false, Finished).
Proof.
  split; [vm_compute; reflexivity|]. split; [|vm_compute; reflexivity].
  unfold released. vm_compute. discriminate.
Qed.

(** ** Witnesses *)

Lemma filler_lines_produce_no_frame_witness :
  bytes_startswith keep_alive (b "data:") = false /\
  generate_stream_body Json.loads keep_alive = Ok None /\
  agenerate_stream_body Json.loads keep_alive = Ok None.
Proof.
  split; [reflexivity|].
  apply (proj2 (filler_lines_produce_no_frame Json.loads keep_alive eq_refl) ": ping").
  reflexivity.
Defined.

Lemma token_payload_yields_token_frame_witness :
  generate_stream_body Json.loads token_Hi = Ok (Some frame_Hi) /\
  agenerate_stream_body Json.loads token_Hi = Ok (Some frame_Hi) /\
  is_token_frame frame_Hi = true.
Proof.
  apply (token_payload_yields_token_frame Json.loads token_Hi
           (dq "data:{'token':{'text':'Hi'}}")
           [("token", VDict [("text", VStr "Hi")])] [("text", VStr "Hi")] (VStr "Hi"));
    reflexivity.
Defined.

Lemma finish_payload_yields_final_frame_witness :
  generate_stream_body Json.loads finish_stop = Ok (Some frame_stop) /\
  agenerate_stream_body Json.loads finish_stop = Ok (Some frame_stop).
Proof.
  apply (finish_payload_yields_final_frame Json.loads finish_stop
           (dq "data:{'finishReason':'stop','generatedTokens':2}")
           [("finishReason", VStr "stop"); ("generatedTokens", VInt 2)]
           (VStr "stop") (VInt 2));
    reflexivity.
Defined.

Lemma finish_without_count_raises_key_error_witness :
  generate_stream_body Json.loads finish_no_count = Raise (KeyError "generatedTokens") /\
  agenerate_stream_body Json.loads finish_no_count = Raise (KeyError "generatedTokens").
Proof.
  apply (finish_without_count_raises_key_error Json.loads finish_no_count
           (dq "data:{'finishReason':'stop'}")
           [("finishReason", VStr "stop")] (VStr "stop"));
    reflexivity.
Defined.

Lemma decode_error_raised_where_consumed_witness :
  generate_stream Json.loads (mkResponse 200 ([token_Hi] ++ bad_json :: [token_bang]))
    = ([frame_Hi], Raised JSONDecodeError) /\
  agenerate_stream Json.loads (mkClientResponse 200 None ([token_Hi] ++ bad_json :: [token_bang]))
    = ([frame_Hi], Raised JSONDecodeError) /\
  drain Json.loads 2 (Lisa_init, Created (mkResponse 200 ([token_Hi] ++ bad_json :: [token_bang])))
    = ([frame_Hi], Some (Raised JSONDecodeError)) /\
  adrain Json.loads 2
    (ACreated (mkClientResponse 200 None ([token_Hi] ++ bad_json :: [token_bang])), idle)
    = ([frame_Hi], Some (Raised JSONDecodeError)).
Proof.
  apply (decode_error_raised_where_consumed Json.loads [token_Hi] [token_bang] bad_json
           "data:{bad json" [frame_Hi] None Lisa_init idle);
    reflexivity.
Defined.

Lemma frames_well_formed_when_server_finishes_once_witness :
  finishes_once (generate_stream_body Json.loads) [token_Hi; keep_alive; finish_stop] = true /\
  tokens_then_final
    (fst (generate_stream Json.loads (mkResponse 200 [token_Hi; keep_alive; finish_stop])))
    = true /\
  tokens_then_final
    (fst (agenerate_stream Json.loads
            (mkClientResponse 200 None [token_Hi; keep_alive; finish_stop])))
    = true.
Proof.
  split; [reflexivity|].
  apply (frames_well_formed_when_server_finishes_once Json.loads 200 None
           [token_Hi; keep_alive; finish_stop]).
  reflexivity.
Defined.

Lemma connections_released_when_generator_ends_witness :
  released idle
    (snd (anext Json.loads
            (after_anext Json.loads 2
               (ACreated (mkClientResponse 200 None [token_Hi; token_bang]), idle)))).
Proof.
  apply (proj1 (proj2 (connections_released_when_generator_ends Json.loads
           (mkClientResponse 200 None [token_Hi; token_bang]) idle
           (mkResponse 200 [token_Hi; token_bang]) Lisa_init 2))).
  intros frame. vm_compute. discriminate.
Defined.

(** * Properties of the rest of the client *)

(** ** The URL validator *)

Lemma drop_length_app (s t : str) :
  PyStr.drop (String.length s) (s ++ t)%string = t.
Proof. induction s as [|c s IH]; [destruct t; reflexivity | exact IH]. Qed.

Lemma length_app (s t : str) :
  String.length (s ++ t)%string = String.length s + String.length t.
Proof. induction s as [|c s IH]; [reflexivity | cbn; rewrite IH; reflexivity]. Qed.

Lemma endswith_app (s t : str) : endswith (s ++ t)%string t = true.
Proof.
  unfold endswith. rewrite length_app.
  replace (String.length s + String.length t - String.length t) with (String.length s) by lia.
  rewrite drop_length_app, String.eqb_refl, andb_true_r.
  apply Nat.leb_le. lia.
Qed.

(** A string is what is dropped from its head, then what is left. *)
Lemma drop_splits (n : nat) :
  forall s : str, exists head : str, s = (head ++ PyStr.drop n s)%string.
Proof.
  induction n as [|n IH]; intros s.
  - exists EmptyString. destruct s; reflexivity.
  - destruct s as [|c s].
    + exists EmptyString. reflexivity.
    + destruct (IH s) as [head H]. exists (String c head).
      cbn [PyStr.drop String.append]. rewrite <- H. reflexivity.
Qed.

Lemma endswith_splits (s t : str) :
  endswith s t = true -> exists head : str, s = (head ++ t)%string.
Proof.
  unfold endswith. intros H. apply andb_true_iff in H. destruct H as [_ H].
  apply String.eqb_eq in H.
  destruct (drop_splits (String.length s - String.length t) s) as [head Hs].
  exists head. rewrite H in Hs. exact Hs.
Qed.

(** [rstrip] leaves alone a string whose last character is not in the set. *)
Lemma rstrip_last_kept (chars s : str) (c : ascii) :
  PyStr.mem c chars = false ->
  PyStr.rstrip (s ++ String c EmptyString)%string chars = (s ++ String c EmptyString)%string.
Proof.
  intros H. induction s as [|d s IH].
  - cbn. rewrite H. reflexivity.
  - cbn [String.append PyStr.rstrip]. rewrite IH. destruct s; reflexivity.
Qed.

Lemma rstrip_version_kept (s : str) :
  PyStr.rstrip (s ++ API_VERSION)%string "/" = (s ++ API_VERSION)%string.
Proof.
  change (s ++ API_VERSION)%string with (s ++ (String "v" (String "1" EmptyString)))%string.
  change (String "v" (String "1" EmptyString))
    with (String "v" EmptyString ++ String "1" EmptyString)%string.
  assert (A : forall x y z : str, (x ++ (y ++ z))%string = ((x ++ y) ++ z)%string).
  { intros x y z. induction x as [|c x IH]; [reflexivity | cbn; rewrite IH; reflexivity]. }
  rewrite A. apply rstrip_last_kept. reflexivity.
Qed.

Lemma validate_url_versioned (s : str) :
  validate_url (s ++ API_VERSION)%string = (s ++ API_VERSION)%string.
Proof.
  unfold validate_url. rewrite rstrip_version_kept, endswith_app. reflexivity.
Qed.

Lemma validate_url_version_suffix (v : str) :
  endswith (validate_url v) API_VERSION = true.
Proof.
  unfold validate_url.
  destruct (endswith (PyStr.rstrip v "/") API_VERSION) eqn:E; cbn [negb].
  - exact E.
  - change (PyStr.rstrip v "/" ++ "/" ++ API_VERSION)%string
      with (PyStr.rstrip v "/" ++ ("/" ++ API_VERSION))%string.
    assert (A : forall x y z : str, (x ++ (y ++ z))%string = ((x ++ y) ++ z)%string).
    { intros x y z. induction x as [|c x IH]; [reflexivity | cbn; rewrite IH; reflexivity]. }
    rewrite A. apply endswith_app.
Qed.

(** A URL that ends with the API version comes back as it is, whatever
    precedes the version, a slash or not. *)
Theorem validate_url_keeps_versioned_url (s : str) :
  validate_url (s ++ API_VERSION)%string = (s ++ API_VERSION)%string.
Proof. apply validate_url_versioned. Qed.

(** Whatever the input, the validated URL ends with the API version, and
    so with no slash. *)
Theorem validate_url_ends_with_version (v : str) :
  endswith (validate_url v) API_VERSION = true /\
  endswith (validate_url v) "/" = false.
Proof.
  split; [apply validate_url_version_suffix|].
  destruct (endswith_splits _ _ (validate_url_version_suffix v)) as [head H].
  rewrite H. unfold endswith. rewrite length_app.
  replace (String.length head + String.length API_VERSION - String.length "/")
    with (String.length head + 1) by (cbn; lia).
  replace (head ++ API_VERSION)%string
    with ((head ++ String "v" EmptyString) ++ String "1" EmptyString)%string.
  - replace (String.length head + 1) with (String.length (head ++ String "v" EmptyString)%string)
      by (rewrite length_app; reflexivity).
    rewrite drop_length_app. cbn. apply andb_false_r.
  - clear H. induction head as [|c head IH]; [reflexivity | cbn; rewrite IH; reflexivity].
Qed.

(** Validating twice is validating once. *)
Theorem validate_url_idempotent (v : str) :
  validate_url (validate_url v) = validate_url v.
Proof.
  destruct (endswith_splits _ _ (validate_url_version_suffix v)) as [head H].
  rewrite H. apply validate_url_versioned.
Qed.

Lemma rstrip_slash_app (s : str) :
  PyStr.rstrip (s ++ "/")%string "/" = PyStr.rstrip s "/".
Proof.
  induction s as [|c s IH].
  - reflexivity.
  - cbn [String.append PyStr.rstrip]. rewrite IH. reflexivity.
Qed.

(** Trailing slashes do not count: a URL and the same URL followed by a
    slash validate to the same URL. *)
Theorem validate_url_ignores_trailing_slash (v : str) :
  validate_url (v ++ "/")%string = validate_url v.
Proof. unfold validate_url. rewrite rstrip_slash_app. reflexivity. Qed.

(** ** More on the loop bodies *)

Section MoreLineProperties.

Variable loads : str -> res value.

(** A [data:] line whose payload is not a JSON object never yields a
    frame: a number, a boolean or null is not a container, and a string
    or an array cannot be indexed by a key, so that the body raises
    TypeError. *)
Theorem payload_not_an_object_raises_type_error
  (line : bytes) (payload : str) (json_payload : value) :
  Utf8.decode line = Ok payload ->
  PyStr.startswith payload "data:" = true ->
  loads (PyStr.rstrip (PyStr.removeprefix payload "data:") "/n") = Ok json_payload ->
  (forall items, json_payload <> VDict items) ->
  generate_stream_body loads line = Raise TypeError /\
  agenerate_stream_body loads line = Raise TypeError.
Proof.
  intros Hd Hs Hl Hn.
  change (agenerate_stream_body loads line) with (generate_stream_body loads line).
  rewrite (data_line_parsed loads line payload json_payload Hd Hs Hl).
  destruct json_payload as [| | | |s|items|items]; cbn [PyObj.contains bind];
    try (split; reflexivity).
  - destruct (PyStr.contains s "finishReason"); split; reflexivity.
  - destruct (existsb (fun v => PyObj.is_str v "finishReason") items); split; reflexivity.
  - exfalso. apply (Hn items). reflexivity.
Qed.

Lemma token_branch_outcome
  (line : bytes) (payload : str) (items : list (str * value)) :
  Utf8.decode line = Ok payload ->
  PyStr.startswith payload "data:" = true ->
  loads (PyStr.rstrip (PyStr.removeprefix payload "data:") "/n") = Ok (VDict items) ->
  PyObj.lookup "finishReason" items = None ->
  generate_stream_body loads line =
    match PyObj.lookup "token" items with
    | None => Raise (KeyError "token")
    | Some (VDict tok) =>
        match PyObj.lookup "text" tok with
        | None => Raise (KeyError "text")
        | Some text => Ok (Some (mkStreamingResponse text VNone VNone))
        end
    | Some _ => Raise TypeError
    end.
Proof.
  intros Hd Hs Hl Hf.
  rewrite (data_line_parsed loads line payload (VDict items) Hd Hs Hl).
  cbn [PyObj.contains PyObj.getitem bind]. rewrite Hf. cbn [bind].
  destruct (PyObj.lookup "token" items) as [t|]; [|reflexivity].
  cbn [bind]. destruct t as [| | | | | |tok]; try reflexivity.
  cbn [PyObj.getitem]. destruct (PyObj.lookup "text" tok); reflexivity.
Qed.

(** A [data:] line whose payload is an object with neither a
    [finishReason] nor a usable [token] yields no frame: both loop bodies
    raise KeyError for [token] when the key is missing, KeyError for
    [text] when the token is an object without that key, and TypeError
    when the token is not an object. *)
Theorem token_payload_without_text_raises
  (line : bytes) (payload : str) (items : list (str * value)) :
  Utf8.decode line = Ok payload ->
  PyStr.startswith payload "data:" = true ->
  loads (PyStr.rstrip (PyStr.removeprefix payload "data:") "/n") = Ok (VDict items) ->
  PyObj.lookup "finishReason" items = None ->
  (PyObj.lookup "token" items = None ->
   generate_stream_body loads line = Raise (KeyError "token") /\
   agenerate_stream_body loads line = Raise (KeyError "token")) /\
  (forall tok, PyObj.lookup "token" items = Some (VDict tok) ->
   PyObj.lookup "text" tok = None ->
   generate_stream_body loads line = Raise (KeyError "text") /\
   agenerate_stream_body loads line = Raise (KeyError "text")) /\
  (forall t, PyObj.lookup "token" items = Some t ->
   (forall tok, t <> VDict tok) ->
   generate_stream_body loads line = Raise TypeError /\
   agenerate_stream_body loads line = Raise TypeError).
Proof.
  intros Hd Hs Hl Hf.
  change (agenerate_stream_body loads line) with (generate_stream_body loads line).
  rewrite (token_branch_outcome line payload items Hd Hs Hl Hf).
  split; [|split].
  - intros Hn. rewrite Hn. split; reflexivity.
  - intros tok Ht Hx. rewrite Ht, Hx. split; reflexivity.
  - intros t Ht Hn. rewrite Ht.
    destruct t as [| | | | | |tok]; try (split; reflexivity).
    exfalso. apply (Hn tok). reflexivity.
Qed.

Lemma startswith_app (p t prefix : str) :
  PyStr.startswith p prefix = true ->
  PyStr.startswith (p ++ t)%string prefix = true /\
  PyStr.drop (String.length prefix) (p ++ t)%string
  = (PyStr.drop (String.length prefix) p ++ t)%string.
Proof.
  revert p. induction prefix as [|c prefix IH]; intros p H.
  - split; [reflexivity|]. destruct p; destruct t; reflexivity.
  - destruct p as [|d p]; [discriminate|].
    cbn [PyStr.startswith] in H. apply andb_true_iff in H. destruct H as [Hc Hp].
    destruct (IH p Hp) as [H1 H2].
    cbn [String.append PyStr.startswith String.length PyStr.drop].
    rewrite Hc, H1, H2. split; reflexivity.
Qed.

Lemma rstrip_all_in (t chars : str) :
  all_in t chars = true -> PyStr.rstrip t chars = EmptyString.
Proof.
  induction t as [|c t IH]; intros H; [reflexivity|].
  cbn [all_in] in H. apply andb_true_iff in H. destruct H as [Hc Ht].
  cbn [PyStr.rstrip]. rewrite (IH Ht), Hc. reflexivity.
Qed.

Lemma rstrip_app_all_in (x t chars : str) :
  all_in t chars = true ->
  PyStr.rstrip (x ++ t)%string chars = PyStr.rstrip x chars.
Proof.
  intros H. induction x as [|c x IH].
  - cbn [String.append PyStr.rstrip]. apply rstrip_all_in. exact H.
  - cbn [String.append PyStr.rstrip]. rewrite IH. reflexivity.
Qed.

(** Slashes and letters n at the end of a [data:] line do not count: a
    line and the same line followed by any run of those two characters
    have the same outcome, in both loop bodies. *)
Theorem trailing_slashes_and_n_ignored
  (line line' : bytes) (payload tail : str) :
  Utf8.decode line = Ok payload ->
  Utf8.decode line' = Ok (payload ++ tail)%string ->
  PyStr.startswith payload "data:" = true ->
  all_in tail "/n" = true ->
  generate_stream_body loads line' = generate_stream_body loads line /\
  agenerate_stream_body loads line' = agenerate_stream_body loads line.
Proof.
  intros Hd Hd' Hs Ht.
  destruct (startswith_app payload tail "data:" Hs) as [Hs' Hdrop].
  assert (Htext :
    PyStr.rstrip (PyStr.removeprefix (payload ++ tail)%string "data:") "/n"
    = PyStr.rstrip (PyStr.removeprefix payload "data:") "/n").
  { unfold PyStr.removeprefix. rewrite Hs, Hs', Hdrop.
    apply rstrip_app_all_in. exact Ht. }
  assert (H : generate_stream_body loads line' = generate_stream_body loads line).
  { unfold generate_stream_body. cbn [PyObj.bytes_eq_str].
    rewrite Hd, Hd'. cbn [bind]. rewrite Hs, Hs', Htext. reflexivity. }
  split; exact H.
Qed.

End MoreLineProperties.

(** ** More on whole streams *)

Section MoreStreamProperties.

Variable loads : str -> res value.

(** Whatever exception a line raises, an undecodable line, a payload of
    the wrong type or one with a missing key alike, both generators end
    with it at that line: the frames of the earlier lines are the ones
    yielded, and the lines behind are not read. *)
Theorem any_exception_ends_the_stream
  (before after : list bytes) (line : bytes)
  (frames : list StreamingResponse) (e : exn) (j : option value) :
  for_loop (generate_stream_body loads) before = (frames, Returned) ->
  generate_stream_body loads line = Raise e ->
  generate_stream loads (mkResponse 200 (before ++ line :: after)) = (frames, Raised e) /\
  agenerate_stream loads (mkClientResponse 200 j (before ++ line :: after))
    = (frames, Raised e).
Proof.
  intros Hb Hl. split.
  - unfold generate_stream. cbn [status_code iter_lines Z.eqb Pos.eqb].
    apply for_loop_error_after; assumption.
  - unfold agenerate_stream.
    cbn [ClientResponse_getattr String.eqb Ascii.eqb Bool.eqb status content Z.eqb Pos.eqb negb].
    apply for_loop_error_after; assumption.
Qed.

(** A line that is not valid UTF-8 ends both generators with
    UnicodeDecodeError, whether it carries the marker or not and whatever
    the JSON reader would say: a keep-alive line is skipped only if it
    decodes. *)
Theorem undecodable_line_ends_the_stream
  (before after : list bytes) (line : bytes)
  (frames : list StreamingResponse) (j : option value) :
  for_loop (generate_stream_body loads) before = (frames, Returned) ->
  Utf8.valid line = false ->
  generate_stream loads (mkResponse 200 (before ++ line :: after))
    = (frames, Raised UnicodeDecodeError) /\
  agenerate_stream loads (mkClientResponse 200 j (before ++ line :: after))
    = (frames, Raised UnicodeDecodeError).
Proof.
  intros Hb Hv.
  assert (Hl : generate_stream_body loads line = Raise UnicodeDecodeError).
  { apply undecodable_line_raises. unfold Utf8.decode. rewrite Hv. reflexivity. }
  split.
  - unfold generate_stream. cbn [status_code iter_lines Z.eqb Pos.eqb].
    apply for_loop_error_after; assumption.
  - unfold agenerate_stream.
    cbn [ClientResponse_getattr String.eqb Ascii.eqb Bool.eqb status content Z.eqb Pos.eqb negb].
    apply for_loop_error_after; assumption.
Qed.

Lemma for_loop_skip (body : bytes -> res (option StreamingResponse))
  (before after : list bytes) (line : bytes) :
  body line = Ok None ->
  for_loop body (before ++ line :: after) = for_loop body (before ++ after).
Proof.
  intros H. induction before as [|l before IH]; cbn [app for_loop].
  - rewrite H. reflexivity.
  - rewrite IH. reflexivity.
Qed.

(** A decodable line without the marker can be put anywhere in the body
    of a response with status 200, or taken out of it, without any change
    to what the generators yield and to how they end. *)
Theorem filler_line_changes_nothing
  (before after : list bytes) (line : bytes) (j : option value) :
  Utf8.valid line = true ->
  bytes_startswith line (b "data:") = false ->
  generate_stream loads (mkResponse 200 (before ++ line :: after))
    = generate_stream loads (mkResponse 200 (before ++ after)) /\
  agenerate_stream loads (mkClientResponse 200 j (before ++ line :: after))
    = agenerate_stream loads (mkClientResponse 200 j (before ++ after)).
Proof.
  intros Hv Hm.
  assert (Hl : generate_stream_body loads line = Ok None).
  { apply filler_line_skipped with (payload := string_of_list_byte line).
    - unfold Utf8.decode. rewrite Hv. reflexivity.
    - change "data:" with (string_of_list_byte (b "data:")).
      rewrite startswith_decoded. exact Hm. }
  split.
  - unfold generate_stream. cbn [status_code iter_lines Z.eqb Pos.eqb].
    apply for_loop_skip. exact Hl.
  - unfold agenerate_stream.
    cbn [ClientResponse_getattr String.eqb Ascii.eqb Bool.eqb status content Z.eqb Pos.eqb negb].
    apply for_loop_skip. exact Hl.
Qed.

Lemma unmarked_line_no_frame (line : bytes) (frame : StreamingResponse) :
  bytes_startswith line (b "data:") = false ->
  generate_stream_body loads line <> Ok (Some frame).
Proof.
  intros Hm. destruct (Utf8.decode line) as [payload|e] eqn:Hd.
  - rewrite (filler_line_skipped loads line payload Hd); [discriminate|].
    rewrite (decode_text _ _ Hd).
    change "data:" with (string_of_list_byte (b "data:")).
    rewrite startswith_decoded. exact Hm.
  - rewrite (undecodable_line_raises loads line e Hd). discriminate.
Qed.

Lemma for_loop_frames_bounded (lines : list bytes) :
  List.length (fst (for_loop (generate_stream_body loads) lines))
  <= List.length (marked lines).
Proof.
  induction lines as [|l lines IH]; [apply le_n|].
  cbn [for_loop]. unfold marked in *. cbn [filter].
  destruct (generate_stream_body loads l) as [[frame|]|e] eqn:Hl.
  - destruct (bytes_startswith l (b "data:")) eqn:Hm.
    + destruct (for_loop (generate_stream_body loads) lines) as [fs c].
      cbn [fst List.length] in *. lia.
    + exfalso. apply (unmarked_line_no_frame l frame Hm). exact Hl.
  - destruct (bytes_startswith l (b "data:")); cbn [List.length]; lia.
  - cbn [fst List.length]. lia.
Qed.

(** Each generator yields at most one frame for each line that carries
    the marker, and none for the others: there are never more frames
    than marked lines. *)
Theorem at_most_one_frame_per_marked_line (response : Response) (aresponse : ClientResponse) :
  List.length (fst (generate_stream loads response))
    <= List.length (marked (iter_lines response)) /\
  List.length (fst (agenerate_stream loads aresponse))
    <= List.length (marked (content aresponse)).
Proof.
  split.
  - unfold generate_stream. destruct (status_code response =? 200)%Z.
    + apply for_loop_frames_bounded.
    + cbn. lia.
  - unfold agenerate_stream.
    cbn [ClientResponse_getattr String.eqb Ascii.eqb Bool.eqb].
    destruct (negb (status aresponse =? 200)%Z).
    + cbn. lia.
    + apply for_loop_frames_bounded.
Qed.

(** *** The generator objects *)

Lemma next_finished (self : Lisa) :
  next loads (self, Finished) = (StopIteration, (self, Finished)).
Proof. reflexivity. Qed.

Lemma next_ends_finished (st : Lisa * generator) :
  (forall frame, fst (next loads st) <> Yielded frame) ->
  snd (snd (next loads st)) = Finished.
Proof.
  destruct st as [self g]. cbn [next]. intros H.
  destruct g as [response|rest|].
  - destruct (status_code response =? 200)%Z; [|reflexivity].
    destruct (resume (generate_stream_body loads) (iter_lines response)) as [[frame| |e] rest];
      try reflexivity.
    exfalso. apply (H frame). reflexivity.
  - destruct (resume (generate_stream_body loads) rest) as [[frame| |e] rest'];
      try reflexivity.
    exfalso. apply (H frame). reflexivity.
  - reflexivity.
Qed.

Lemma after_next_finished (n : nat) (self : Lisa) :
  after_next loads n (self, Finished) = (self, Finished).
Proof. induction n as [|n IH]; [reflexivity | exact IH]. Qed.

Lemma after_anext_finished (n : nat) (w : Connections) :
  after_anext loads n (AFinished, w) = (AFinished, w).
Proof. induction n as [|n IH]; [reflexivity | exact IH]. Qed.

Lemma anext_ends_finished (st : async_generator * Connections) :
  (forall frame, fst (anext loads st) <> Yielded frame) ->
  fst (snd (anext loads st)) = AFinished.
Proof.
  destruct st as [g w]. cbn [anext]. intros H.
  destruct g as [response|rest|].
  - destruct (ClientResponse_getattr response "status") as [st|e]; [|reflexivity].
    destruct (negb (st =? 200)%Z); [reflexivity|].
    destruct (resume (agenerate_stream_body loads) (content response)) as [[frame| |e] rest];
      try reflexivity.
    exfalso. apply (H frame). reflexivity.
  - destruct (resume (agenerate_stream_body loads) rest) as [[frame| |e] rest'];
      try reflexivity.
    exfalso. apply (H frame). reflexivity.
  - reflexivity.
Qed.

(** A generator that has ended, by running out of lines or by raising,
    stays ended: every later call gives StopIteration, never a frame and
    never the exception again; the stream cannot be resumed behind a line
    that raised. *)
Lemma ended_generator_stays_ended
  (st : Lisa * generator) (ast : async_generator * Connections) (n : nat) :
  ((forall frame, fst (next loads st) <> Yielded frame) ->
   fst (next loads (after_next loads n (snd (next loads st)))) = StopIteration) /\
  ((forall frame, fst (anext loads ast) <> Yielded frame) ->
   fst (anext loads (after_anext loads n (snd (anext loads ast)))) = StopIteration).
Proof.
  split; intros H.
  - pose proof (next_ends_finished st H) as Hf.
    destruct (snd (next loads st)) as [self g]. cbn [snd] in Hf. subst g.
    rewrite after_next_finished. reflexivity.
  - pose proof (anext_ends_finished ast H) as Hf.
    destruct (snd (anext loads ast)) as [g w]. cbn [fst] in Hf. subst g.
    rewrite after_anext_finished. reflexivity.
Qed.

Lemma after_operations_reachable (response : ClientResponse) (w : Connections)
  (ops : list operation) :
  forall st, reachable response w st ->
             reachable response w (after_operations loads ops st).
Proof.
  induction ops as [|op ops IH]; intros st H; [exact H|].
  destruct op; cbn [after_operations]; apply IH.
  - apply anext_reachable. exact H.
  - rewrite (aclose_releases response w st H). constructor.
Qed.

(** Whatever the caller does with the generator of [agenerate_stream],
    calls of [anext] and of [aclose] in any order, the call holds one
    session and one response while the generator is parked at a [yield],
    and nothing otherwise: contexts are never entered twice, and never
    left twice. *)
Theorem one_connection_per_call
  (response : ClientResponse) (w : Connections) (ops : list operation) :
  let st := after_operations loads ops (ACreated response, w) in
  match fst st with
  | ASuspended _ => snd st = enter w
  | ACreated _ | AFinished => snd st = w
  end.
Proof.
  intros st.
  assert (H : reachable response w st)
    by (apply after_operations_reachable; constructor).
  destruct H; reflexivity.
Qed.

(** Taking the frames one at a time gives what the whole run gives: the
    same frames in the same order, then the same end, with one call more
    than there are frames. *)
Theorem stepping_gives_the_run
  (self : Lisa) (response : Response) (w : Connections) (aresponse : ClientResponse) :
  drain loads (S (List.length (fst (generate_stream loads response)))) (self, Created response)
    = (fst (generate_stream loads response), Some (snd (generate_stream loads response))) /\
  adrain loads (S (List.length (fst (agenerate_stream loads aresponse)))) (ACreated aresponse, w)
    = (fst (agenerate_stream loads aresponse), Some (snd (agenerate_stream loads aresponse))).
Proof.
  split.
  - apply drain_generate_stream. lia.
  - apply adrain_agenerate_stream. lia.
Qed.

End MoreStreamProperties.

(** ** Requests that are not streamed *)

Section RequestProperties.

Variable response_json : Response -> res value.

Lemma three_fields_outcome (items : list (str * value)) :
  (text <- PyObj.getitem (VDict items) "generatedText" ;;
   count <- PyObj.getitem (VDict items) "generatedTokens" ;;
   reason <- PyObj.getitem (VDict items) "finishReason" ;;
   Ok (types.mkResponse text count reason))
  = match first_missing ["generatedText"; "generatedTokens"; "finishReason"] items with
    | Some key => Raise (KeyError key)
    | None =>
        match PyObj.lookup "generatedText" items, PyObj.lookup "generatedTokens" items,
              PyObj.lookup "finishReason" items with
        | Some text, Some count, Some reason => Ok (types.mkResponse text count reason)
        | _, _, _ => Raise TypeError
        end
    end.
Proof.
  cbn [PyObj.getitem first_missing].
  destruct (PyObj.lookup "generatedText" items); [|reflexivity].
  destruct (PyObj.lookup "generatedTokens" items); [|reflexivity].
  destruct (PyObj.lookup "finishReason" items); reflexivity.
Qed.

(** On a response with status 200 whose body is a JSON object with the
    three fields, [generate] and [agenerate] return the same result: the
    three values as they are in the body; [generate] prints nothing. *)
Theorem generate_and_agenerate_return_the_fields
  (response : Response) (aresponse : ClientResponse)
  (items : list (str * value)) (text count reason : value) :
  status_code response = 200%Z ->
  status aresponse = 200%Z ->
  response_json response = Ok (VDict items) ->
  json aresponse = Some (VDict items) ->
  PyObj.lookup "generatedText" items = Some text ->
  PyObj.lookup "generatedTokens" items = Some count ->
  PyObj.lookup "finishReason" items = Some reason ->
  generate response_json response = ([], Ok (types.mkResponse text count reason)) /\
  agenerate aresponse = Ok (types.mkResponse text count reason).
Proof.
  intros Hs Ha Hj Haj Ht Hc Hr. split.
  - unfold generate. rewrite Hs, Hj. cbn [Z.eqb Pos.eqb bind PyObj.getitem].
    rewrite Ht, Hc, Hr. reflexivity.
  - unfold agenerate, await_json. rewrite Haj.
    cbn [bind ClientResponse_getattr String.eqb Ascii.eqb Bool.eqb]. rewrite Ha.
    cbn [Z.eqb Pos.eqb bind PyObj.getitem]. rewrite Ht, Hc, Hr. reflexivity.
Qed.

(** On a response with status 200 whose body is a JSON object that lacks
    one of the three fields, [generate] and [agenerate] raise KeyError for
    the first field missing in the order [generatedText],
    [generatedTokens], [finishReason]. *)
Theorem generate_raises_for_first_missing_field
  (response : Response) (aresponse : ClientResponse)
  (items : list (str * value)) (key : str) :
  status_code response = 200%Z ->
  status aresponse = 200%Z ->
  response_json response = Ok (VDict items) ->
  json aresponse = Some (VDict items) ->
  first_missing ["generatedText"; "generatedTokens"; "finishReason"] items = Some key ->
  generate response_json response = ([], Raise (KeyError key)) /\
  agenerate aresponse = Raise (KeyError key).
Proof.
  intros Hs Ha Hj Haj Hm. split.
  - unfold generate. rewrite Hs, Hj. cbn [Z.eqb Pos.eqb bind].
    rewrite three_fields_outcome, Hm. reflexivity.
  - unfold agenerate, await_json. rewrite Haj.
    cbn [bind ClientResponse_getattr String.eqb Ascii.eqb Bool.eqb]. rewrite Ha.
    cbn [Z.eqb Pos.eqb]. rewrite three_fields_outcome, Hm. reflexivity.
Qed.

(** On a status other than 200 the blocking calls raise what the Error
    Mapper returns for the status code and the response, without reading
    the body as JSON: the outcome is the same whatever [response.json()]
    would give.  [generate] prints the response first. *)
Theorem blocking_calls_map_the_failure
  (other_json : Response -> res value) (response : Response) :
  status_code response <> 200%Z ->
  generate response_json response
    = ([response], Raise (parse_error (status_code response) (OfRequests response))) /\
  generate other_json response = generate response_json response /\
  embed response_json response
    = Raise (parse_error (status_code response) (OfRequests response)) /\
  embed other_json response = embed response_json response.
Proof.
  intros H. unfold generate, embed.
  destruct (Z.eqb_spec (status_code response) 200); [contradiction|].
  repeat split.
Qed.

(** The non-blocking calls never raise a failure of the Error Mapper,
    whatever the response: [agenerate] and [aembed] read
    [response.status_code], which an aiohttp response does not have, on
    their way to it. *)
Theorem nonblocking_calls_never_map_the_failure
  (response : ClientResponse) (code : Z) (r : response_object) :
  agenerate response <> Raise (parse_error code r) /\
  aembed response <> Raise (parse_error code r).
Proof.
  split.
  - unfold agenerate, await_json. destruct (json response) as [output|]; [|discriminate].
    cbn [bind ClientResponse_getattr String.eqb Ascii.eqb Bool.eqb].
    destruct (status response =? 200)%Z; [|discriminate].
    destruct output as [| | | | | |items]; try discriminate.
    cbn [PyObj.getitem].
    destruct (PyObj.lookup "generatedText" items); [|discriminate].
    cbn [bind]. destruct (PyObj.lookup "generatedTokens" items); [|discriminate].
    cbn [bind]. destruct (PyObj.lookup "finishReason" items); discriminate.
  - unfold aembed, await_json.
    cbn [bind ClientResponse_getattr String.eqb Ascii.eqb Bool.eqb].
    destruct (negb (status response =? 200)%Z).
    + destruct (json response); discriminate.
    + destruct (json response) as [output|]; [|discriminate].
      cbn [bind]. destruct output as [| | | | | |items]; try discriminate.
      cbn [PyObj.getitem]. destruct (PyObj.lookup "embeddings" items); discriminate.
Qed.

(** [agenerate] reads the body as JSON before it looks at the status: a
    body that cannot be read makes it raise the reader's exception on
    every status, 200 included; with a readable body and a status other
    than 200 it raises AttributeError. *)
Theorem agenerate_reads_the_body_first (response : ClientResponse) :
  (json response = None -> agenerate response = Raise ResponseJsonError) /\
  (json response <> None -> status response <> 200%Z ->
   agenerate response = Raise (AttributeError "status_code")).
Proof.
  unfold agenerate, await_json. split.
  - intros H. rewrite H. reflexivity.
  - intros H Hs. destruct (json response) as [output|]; [|contradiction].
    cbn [bind ClientResponse_getattr String.eqb Ascii.eqb Bool.eqb].
    destruct (Z.eqb_spec (status response) 200); [contradiction | reflexivity].
Qed.

(** On a response with status 200 whose body is a JSON object, [embed]
    and [aembed] return what the body holds under [embeddings], as it
    is, and raise KeyError when the key is missing. *)
Theorem embed_and_aembed_return_the_embeddings
  (response : Response) (aresponse : ClientResponse) (items : list (str * value)) :
  status_code response = 200%Z ->
  status aresponse = 200%Z ->
  response_json response = Ok (VDict items) ->
  json aresponse = Some (VDict items) ->
  embed response_json response =
    match PyObj.lookup "embeddings" items with
    | Some embeddings => Ok embeddings
    | None => Raise (KeyError "embeddings")
    end /\
  aembed aresponse = embed response_json response.
Proof.
  intros Hs Ha Hj Haj.
  assert (He : embed response_json response =
               match PyObj.lookup "embeddings" items with
               | Some embeddings => Ok embeddings
               | None => Raise (KeyError "embeddings")
               end).
  { unfold embed. rewrite Hs, Hj. reflexivity. }
  split; [exact He|]. rewrite He.
  unfold aembed, await_json.
  cbn [bind ClientResponse_getattr String.eqb Ascii.eqb Bool.eqb]. rewrite Ha, Haj.
  reflexivity.
Qed.

End RequestProperties.

(** ** The model catalogue *)

Section CollectProperties.

Context {A B : Type}.

Lemma collect_app (f : A -> res B) (l1 l2 : list A) :
  collect f (l1 ++ l2) = (ys <- collect f l1 ;; zs <- collect f l2 ;; Ok (ys ++ zs)).
Proof.
  induction l1 as [|x l1 IH]; cbn [app collect bind].
  - destruct (collect f l2); reflexivity.
  - destruct (f x) as [y|e]; [|reflexivity]. cbn [bind]. rewrite IH.
    destruct (collect f l1) as [ys|e]; [|reflexivity]. cbn [bind].
    destruct (collect f l2); reflexivity.
Qed.

Lemma collect_all_flat {C : Type} (f : C -> res (list B)) (g : A -> res B)
  (h : C -> list A) (l : list C) :
  (forall x, In x l -> f x = collect g (h x)) ->
  collect_all f l = collect g (flat_map h l).
Proof.
  induction l as [|x l IH]; intros H; [reflexivity|].
  cbn [collect_all flat_map]. rewrite collect_app.
  rewrite (H x (or_introl eq_refl)).
  rewrite IH by (intros y Hy; apply H; right; exact Hy). reflexivity.
Qed.

Lemma collect_ok (f : A -> res B) (m : A -> B) (l : list A) :
  (forall x, In x l -> f x = Ok (m x)) -> collect f l = Ok (map m l).
Proof.
  induction l as [|x l IH]; intros H; [reflexivity|].
  cbn [collect map]. rewrite (H x (or_introl eq_refl)). cbn [bind].
  rewrite IH by (intros y Hy; apply H; right; exact Hy). reflexivity.
Qed.

Lemma collect_raise (f : A -> res B) (before after : list A) (x : A)
  (ys : list B) (e : exn) :
  collect f before = Ok ys -> f x = Raise e ->
  collect f (before ++ x :: after) = Raise e.
Proof.
  intros Hb Hx. rewrite collect_app, Hb. cbn [bind collect]. rewrite Hx. reflexivity.
Qed.

End CollectProperties.

Lemma collect_map {A B C : Type} (f : B -> res C) (k : A -> B) (l : list A) :
  collect f (map k l) = collect (fun x => f (k x)) l.
Proof.
  induction l as [|x l IH]; [reflexivity|]. cbn [map collect]. rewrite IH. reflexivity.
Qed.

Lemma collect_all_map {A B C : Type} (f : B -> res (list C)) (k : A -> B) (l : list A) :
  collect_all f (map k l) = collect_all (fun x => f (k x)) l.
Proof.
  induction l as [|x l IH]; [reflexivity|]. cbn [map collect_all]. rewrite IH. reflexivity.
Qed.

Section CatalogueProperties.

Variable FoundationModel : Type.
Variable from_dict : value -> res FoundationModel.
Variable response_json : Response -> res value.
Variable get : str -> Response.
Variable format_object : value -> str.
Variable url : str.

Abbreviation describe :=
  (describe_entry FoundationModel from_dict response_json get format_object url).

(** On a catalogue of the expected form the three nested loops are one
    loop over its entries. *)
Lemma described_catalogue (c : list (str * list (str * list value))) :
  described FoundationModel from_dict response_json get format_object url (catalogue c)
  = collect describe (entries c).
Proof.
  unfold described, catalogue, entries. cbn [py_items bind].
  rewrite collect_all_map.
  apply collect_all_flat. intros [type_name providers] _. cbn [fst snd py_items bind].
  rewrite collect_all_map.
  apply collect_all_flat. intros [provider names] _. cbn [fst snd py_iter bind].
  rewrite collect_map. reflexivity.
Qed.

Lemma list_models_catalogue (c : list (str * list (str * list value))) :
  status_code (get (url ++ "/listModels")%string) = 200%Z ->
  response_json (get (url ++ "/listModels")%string) = Ok (catalogue c) ->
  list_models FoundationModel from_dict response_json get format_object url
  = collect describe (entries c).
Proof.
  intros Hs Hj. unfold list_models. rewrite Hs, Hj. cbn [Z.eqb Pos.eqb bind].
  apply described_catalogue.
Qed.

(** When the server answers the listing with a catalogue of the expected
    form and every [describe_model] succeeds, [list_models] returns one
    model for each model name of the catalogue, in the order of the
    catalogue. *)
Theorem list_models_describes_every_entry
  (c : list (str * list (str * list value))) (model : str * value -> FoundationModel) :
  status_code (get (url ++ "/listModels")%string) = 200%Z ->
  response_json (get (url ++ "/listModels")%string) = Ok (catalogue c) ->
  (forall entry, In entry (entries c) -> describe entry = Ok (model entry)) ->
  list_models FoundationModel from_dict response_json get format_object url
  = Ok (map model (entries c)).
Proof.
  intros Hs Hj Hd. rewrite (list_models_catalogue c Hs Hj).
  apply collect_ok. exact Hd.
Qed.

(** When a [describe_model] fails, the ones before it having succeeded,
    [list_models] raises its exception: no partial list is returned, and
    the entries behind are not looked up. *)
Theorem list_models_fails_with_first_failure
  (c : list (str * list (str * list value)))
  (before after : list (str * value)) (entry : str * value)
  (models : list FoundationModel) (e : exn) :
  status_code (get (url ++ "/listModels")%string) = 200%Z ->
  response_json (get (url ++ "/listModels")%string) = Ok (catalogue c) ->
  entries c = before ++ entry :: after ->
  collect describe before = Ok models ->
  describe entry = Raise e ->
  list_models FoundationModel from_dict response_json get format_object url = Raise e.
Proof.
  intros Hs Hj He Hb Hx. rewrite (list_models_catalogue c Hs Hj), He.
  apply collect_raise with (ys := models); assumption.
Qed.

Lemma filtered_listings_catalogue (c : list (str * list (str * list value))) :
  (status_code (get (url ++ "/listModels?modelTypes=textgen")%string) = 200%Z ->
   response_json (get (url ++ "/listModels?modelTypes=textgen")%string) = Ok (catalogue c) ->
   list_textgen_models FoundationModel from_dict response_json get format_object url
   = collect describe (entries c)) /\
  (status_code (get (url ++ "/listModels?modelTypes=embedding")%string) = 200%Z ->
   response_json (get (url ++ "/listModels?modelTypes=embedding")%string) = Ok (catalogue c) ->
   list_embedding_models FoundationModel from_dict response_json get format_object url
   = collect describe (entries c)).
Proof.
  split; intros Hs Hj.
  - unfold list_textgen_models. rewrite Hs, Hj. cbn [Z.eqb Pos.eqb bind].
    apply described_catalogue.
  - unfold list_embedding_models. rewrite Hs, Hj. cbn [Z.eqb Pos.eqb bind].
    apply described_catalogue.
Qed.

(** The two filtered listings do with the catalogue they get what
    [list_models] does with its own: when the server answers with a
    catalogue of the expected form and every [describe_model] succeeds,
    [list_textgen_models] and [list_embedding_models] return one model
    for each model name of their catalogue, in its order. *)
Theorem filtered_listings_describe_every_entry
  (textgen embedding : list (str * list (str * list value)))
  (model : str * value -> FoundationModel) :
  status_code (get (url ++ "/listModels?modelTypes=textgen")%string) = 200%Z ->
  response_json (get (url ++ "/listModels?modelTypes=textgen")%string)
    = Ok (catalogue textgen) ->
  status_code (get (url ++ "/listModels?modelTypes=embedding")%string) = 200%Z ->
  response_json (get (url ++ "/listModels?modelTypes=embedding")%string)
    = Ok (catalogue embedding) ->
  (forall entry, In entry (entries textgen ++ entries embedding) ->
                 describe entry = Ok (model entry)) ->
  list_textgen_models FoundationModel from_dict response_json get format_object url
    = Ok (map model (entries textgen)) /\
  list_embedding_models FoundationModel from_dict response_json get format_object url
    = Ok (map model (entries embedding)).
Proof.
  intros Hs1 Hj1 Hs2 Hj2 Hd. split.
  - rewrite (proj1 (filtered_listings_catalogue textgen) Hs1 Hj1).
    apply collect_ok. intros entry H. apply Hd. apply in_or_app. left. exact H.
  - rewrite (proj2 (filtered_listings_catalogue embedding) Hs2 Hj2).
    apply collect_ok. intros entry H. apply Hd. apply in_or_app. right. exact H.
Qed.

End CatalogueProperties.

(** ** Printing tokens *)

Lemma append_empty (s : str) : (s ++ EmptyString)%string = s.
Proof. induction s as [|c s IH]; [reflexivity | cbn; rewrite IH; reflexivity]. Qed.

Lemma append_assoc (x y z : str) : ((x ++ y) ++ z)%string = (x ++ (y ++ z))%string.
Proof. induction x as [|c x IH]; [reflexivity | cbn; rewrite IH; reflexivity]. Qed.

(** Tokens handed to [on_llm_new_token] one after the other reach the
    terminal in that order, joined, and none of their text is left in the
    buffer. *)
Theorem tokens_are_printed_in_order (tokens : list str) (out : Stdout) :
  fold_left (fun o token => on_llm_new_token token o) tokens out
  = match tokens with
    | [] => out
    | _ :: _ =>
        mkStdout (emitted out ++ pending out ++ fold_right String.append EmptyString tokens)%string
                 EmptyString
    end.
Proof.
  revert out. induction tokens as [|t tokens IH]; intros out; [reflexivity|].
  cbn [fold_left]. rewrite IH.
  unfold on_llm_new_token, stdout_flush, stdout_write. cbn [emitted pending fold_right].
  destruct tokens as [|t' tokens].
  - cbn. rewrite append_empty. reflexivity.
  - cbn [String.append]. rewrite !append_assoc. reflexivity.
Qed.

(** ** Witnesses of the further properties *)

Lemma payload_not_an_object_raises_type_error_witness :
  generate_stream_body Json.loads number_line = Raise TypeError /\
  agenerate_stream_body Json.loads number_line = Raise TypeError.
Proof.
  apply (payload_not_an_object_raises_type_error Json.loads number_line "data:7" (VInt 7));
    try reflexivity.
  intros items. discriminate.
Defined.

Lemma token_payload_without_text_raises_witness :
  generate_stream_body Json.loads empty_object_line = Raise (KeyError "token") /\
  agenerate_stream_body Json.loads empty_object_line = Raise (KeyError "token").
Proof.
  apply (proj1 (token_payload_without_text_raises Json.loads empty_object_line "data:{}" []
                  eq_refl eq_refl eq_refl eq_refl)).
  reflexivity.
Defined.

Lemma trailing_slashes_and_n_ignored_witness :
  generate_stream_body Json.loads token_Hi_trailing = generate_stream_body Json.loads token_Hi /\
  agenerate_stream_body Json.loads token_Hi_trailing
    = agenerate_stream_body Json.loads token_Hi.
Proof.
  apply (trailing_slashes_and_n_ignored Json.loads token_Hi token_Hi_trailing
           (dq "data:{'token':{'text':'Hi'}}") "/n/nn");
    reflexivity.
Defined.

Lemma any_exception_ends_the_stream_witness :
  generate_stream Json.loads (mkResponse 200 ([token_Hi] ++ number_line :: [token_bang]))
    = ([frame_Hi], Raised TypeError) /\
  agenerate_stream Json.loads
    (mkClientResponse 200 None ([token_Hi] ++ number_line :: [token_bang]))
    = ([frame_Hi], Raised TypeError).
Proof.
  apply (any_exception_ends_the_stream Json.loads [token_Hi] [token_bang] number_line
           [frame_Hi] TypeError None);
    reflexivity.
Defined.

Lemma undecodable_line_ends_the_stream_witness :
  generate_stream Json.loads (mkResponse 200 ([token_Hi] ++ not_utf8 :: [token_bang]))
    = ([frame_Hi], Raised UnicodeDecodeError) /\
  agenerate_stream Json.loads
    (mkClientResponse 200 None ([token_Hi] ++ not_utf8 :: [token_bang]))
    = ([frame_Hi], Raised UnicodeDecodeError).
Proof.
  apply (undecodable_line_ends_the_stream Json.loads [token_Hi] [token_bang] not_utf8
           [frame_Hi] None);
    reflexivity.
Defined.

Lemma filler_line_changes_nothing_witness :
  generate_stream Json.loads (mkResponse 200 ([token_Hi] ++ keep_alive :: [finish_stop]))
    = generate_stream Json.loads (mkResponse 200 ([token_Hi] ++ [finish_stop])) /\
  agenerate_stream Json.loads
    (mkClientResponse 200 None ([token_Hi] ++ keep_alive :: [finish_stop]))
    = agenerate_stream Json.loads (mkClientResponse 200 None ([token_Hi] ++ [finish_stop])).
Proof.
  apply (filler_line_changes_nothing Json.loads [token_Hi] [finish_stop] keep_alive None);
    reflexivity.
Defined.

Lemma generate_and_agenerate_return_the_fields_witness :
  generate (fun _ => Ok (VDict generation)) ok_response
    = ([], Ok (types.mkResponse (VStr "Hi!") (VInt 2) (VStr "stop"))) /\
  agenerate (mkClientResponse 200 (Some (VDict generation)) [])
    = Ok (types.mkResponse (VStr "Hi!") (VInt 2) (VStr "stop")).
Proof.
  apply (generate_and_agenerate_return_the_fields (fun _ => Ok (VDict generation))
           ok_response (mkClientResponse 200 (Some (VDict generation)) [])
           generation (VStr "Hi!") (VInt 2) (VStr "stop"));
    reflexivity.
Defined.

Lemma generate_raises_for_first_missing_field_witness :
  generate (fun _ => Ok (VDict generation_no_count)) ok_response
    = ([], Raise (KeyError "generatedTokens")) /\
  agenerate (mkClientResponse 200 (Some (VDict generation_no_count)) [])
    = Raise (KeyError "generatedTokens").
Proof.
  apply (generate_raises_for_first_missing_field (fun _ => Ok (VDict generation_no_count))
           ok_response (mkClientResponse 200 (Some (VDict generation_no_count)) [])
           generation_no_count "generatedTokens");
    reflexivity.
Defined.

Lemma blocking_calls_map_the_failure_witness :
  generate (fun _ => Raise JSONDecodeError) not_found
    = ([not_found], Raise (parse_error 404 (OfRequests not_found))) /\
  embed (fun _ => Ok (VDict embedding)) not_found
    = embed (fun _ => Raise JSONDecodeError) not_found.
Proof.
  assert (H : status_code not_found <> 200%Z) by (cbn; lia).
  pose proof (blocking_calls_map_the_failure (fun _ => Raise JSONDecodeError)
                (fun _ => Ok (VDict embedding)) not_found H) as [H1 [_ [_ H4]]].
  split; [exact H1 | exact H4].
Defined.

Lemma agenerate_reads_the_body_first_witness :
  agenerate (mkClientResponse 200 None []) = Raise ResponseJsonError /\
  agenerate anot_found = Raise (AttributeError "status_code").
Proof.
  split.
  - apply (proj1 (agenerate_reads_the_body_first (mkClientResponse 200 None []))).
    reflexivity.
  - apply (proj2 (agenerate_reads_the_body_first anot_found)).
    + discriminate.
    + cbn. lia.
Defined.

Lemma embed_and_aembed_return_the_embeddings_witness :
  embed (fun _ => Ok (VDict embedding)) ok_response
    = Ok (VList [VList [VFloat "0.5"; VFloat "0.25"]]) /\
  aembed (mkClientResponse 200 (Some (VDict embedding)) [])
    = embed (fun _ => Ok (VDict embedding)) ok_response.
Proof.
  apply (embed_and_aembed_return_the_embeddings (fun _ => Ok (VDict embedding))
           ok_response (mkClientResponse 200 (Some (VDict embedding)) []) embedding);
    reflexivity.
Defined.

Lemma list_models_describes_every_entry_witness :
  list_models value (fun output => Ok output) (sample_json "m2") sample_get
    (fun _ => EmptyString) sample_url
  = Ok [VStr "model"; VStr "model"; VStr "model"].
Proof.
  apply (list_models_describes_every_entry value (fun output => Ok output)
           (sample_json "m2") sample_get (fun _ => EmptyString) sample_url
           (sample_catalogue "m2") (fun _ => VStr "model")); try reflexivity.
  intros entry [<-|[<-|[<-|[]]]]; reflexivity.
Defined.

Lemma list_models_fails_with_first_failure_witness :
  list_models value (fun output => Ok output) (sample_json "gone") sample_get
    (fun _ => EmptyString) sample_url
  = Raise (parse_error 404 (OfRequests (mkResponse 404 []))).
Proof.
  apply (list_models_fails_with_first_failure value (fun output => Ok output)
           (sample_json "gone") sample_get (fun _ => EmptyString) sample_url
           (sample_catalogue "gone") [("p", VStr "m1")] [("q", VStr "e1")] ("p", VStr "gone")
           [VStr "model"] (parse_error 404 (OfRequests (mkResponse 404 []))));
    reflexivity.
Defined.

Lemma filtered_listings_describe_every_entry_witness :
  list_textgen_models value (fun output => Ok output) (sample_json "m2") sample_get
    (fun _ => EmptyString) sample_url
    = Ok [VStr "model"; VStr "model"; VStr "model"] /\
  list_embedding_models value (fun output => Ok output) (sample_json "m2") sample_get
    (fun _ => EmptyString) sample_url
    = Ok [VStr "model"; VStr "model"; VStr "model"].
Proof.
  apply (filtered_listings_describe_every_entry value (fun output => Ok output)
           (sample_json "m2") sample_get (fun _ => EmptyString) sample_url
           (sample_catalogue "m2") (sample_catalogue "m2") (fun _ => VStr "model"));
    try reflexivity.
  intros entry [<-|[<-|[<-|[<-|[<-|[<-|[]]]]]]]; reflexivity.
Defined.
